(** * Dental-Chatbot: the request pipeline of [app.py]

    A shallow embedding of the Flask application [src/app.py]: the
    dataset pointer and cache, the conversation log, the cancel flag
    and the response classifier, with the properties of the
    specification stated over it.

    Python values are modelled as follows.
    - [str] is a sequence of Unicode code points ([list N]).
    - An exception is a value of [exn]; a call that may raise returns
      a [result].
    - The SQLite tables are lists of rows, the upload directory is a
      finite map from paths to file contents.
    - Libraries outside the repository (pandas, matplotlib, json,
      werkzeug, the answering engine) are fields of the class
      [Runtime] or of the per-request [world]. *)

From Stdlib Require Import ZArith NArith List Bool Ascii String Sorted Lia.
From stdpp Require Import base option list gmap.

Set Warnings "-register-all".
Local Open Scope N_scope.

(** ** Python strings *)

Abbreviation str := (list N) (only parsing).

(** An ASCII literal of the source as a [str]. *)
Definition lit (s : string) : str :=
  map N_of_ascii (list_ascii_of_string s).

(** The templates of the source contain double quotes; they are
    written with a backquote here and [quoted] puts the double quote
    (code point 34) back.  No template contains a backquote. *)
Definition quoted (s : string) : str :=
  map (fun c => if c =? 96 then 34 else c) (lit s).

Fixpoint startswith (p s : str) : bool :=
  match p, s with
  | [], _ => true
  | _ :: _, [] => false
  | a :: p', b :: s' => (a =? b) && startswith p' s'
  end.

(** [sub in s] *)
Fixpoint contains (sub s : str) : bool :=
  startswith sub s ||
  match s with
  | [] => false
  | _ :: s' => contains sub s'
  end.

(** [s.split(sep)] for a non-empty [sep] (every call of the source
    passes a non-empty constant): occurrences are found left to right
    and do not overlap.  [skip] counts the code points of a matched
    separator that are still to be passed over. *)
Fixpoint split_go (sep : str) (skip : nat) (cur : str) (s : str) : list str :=
  match s with
  | [] => [rev cur]
  | c :: s' =>
      match skip with
      | S k => split_go sep k cur s'
      | O =>
          if startswith sep s
          then rev cur :: split_go sep (length sep - 1) [] s'
          else split_go sep 0 (c :: cur) s'
      end
  end.

Definition str_split (sep s : str) : list str := split_go sep 0 [] s.

(** [sep.join(parts)] *)
Fixpoint str_join (sep : str) (parts : list str) : str :=
  match parts with
  | [] => []
  | [p] => p
  | p :: ps => p ++ sep ++ str_join sep ps
  end.

(** [s.rsplit(c, 1)] for a one-character separator: split at the last
    occurrence of [c]. *)
Fixpoint rsplit1 (c : N) (s : str) : list str :=
  match s with
  | [] => [[]]
  | x :: s' =>
      match rsplit1 c s' with
      | [a; b] => [x :: a; b]
      | _ => if x =? c then [[]; s'] else [x :: s']
      end
  end.

(** [str.isspace] on one code point: the white space that [strip()]
    removes (CPython's [_PyUnicode_IsWhitespace]). *)
Definition isspace (c : N) : bool :=
  ((9 <=? c) && (c <=? 13)) || ((28 <=? c) && (c <=? 32)) ||
  (c =? 133) || (c =? 160) || (c =? 5760) ||
  ((8192 <=? c) && (c <=? 8202)) ||
  (c =? 8232) || (c =? 8233) || (c =? 8239) || (c =? 8287) || (c =? 12288).

Fixpoint lstrip (s : str) : str :=
  match s with
  | [] => []
  | c :: s' => if isspace c then lstrip s' else s
  end.

Definition rstrip (s : str) : str := rev (lstrip (rev s)).

(** [s.strip()] *)
Definition strip (s : str) : str := rstrip (lstrip s).

(** A string is true in a condition when it is not empty. *)
Definition truthy (s : str) : bool :=
  match s with [] => false | _ => true end.

(** ** Exceptions *)

Inductive exn :=
| KeyError (key : str)
| IndexError
| ValueError (msg : string)
| AttributeError
| SameFileError
| FileNotFoundError
| IsADirectoryError
| LibraryError (text : str)     (* raised inside a library call *)
| Unmodelled.                   (* outside the modelled part of str.format *)

Inductive result (A : Type) :=
| Ok (a : A)
| Raise (e : exn).
Arguments Ok {A} a.
Arguments Raise {A} e.

#[global] Instance result_ret : MRet result := @Ok.

#[global] Instance result_bind : MBind result := fun A B k r =>
  match r with
  | Ok a => k a
  | Raise e => Raise e
  end.

(** ** [str.format]

    [template.format] called with keyword arguments only, as the
    source calls it.  The scanner follows CPython's [MarkupIterator]:
    a doubled brace is a literal brace, a single opening brace starts a
    replacement field [name!conv:spec] that ends at the matching
    closing brace. *)

Inductive fmt_state :=
| FLit                                  (* literal text *)
| FOpen                                 (* an opening brace was read *)
| FClose                                (* a closing brace was read *)
| FName (name : str)                    (* in a field name (reversed) *)
| FIndex (name : str)                   (* inside [..] of a field name *)
| FConv (name : str)                    (* after the exclamation mark *)
| FConvEnd (name : str) (conv : N)      (* after the conversion character *)
| FSpec (name : str) (conv : option N) (depth : nat) (spec : str).

Definition is_digit (c : N) : bool := (48 <=? c) && (c <=? 57).

Definition digits_value (s : str) : N :=
  fold_left (fun acc c => 10 * acc + (c - 48)) s 0.

Fixpoint kw_lookup (kwargs : list (str * str)) (key : str) : option str :=
  match kwargs with
  | [] => None
  | (k, v) :: rest => if decide (k = key) then Some v else kw_lookup rest key
  end.

(** The first component of a field name ends at a dot or an opening
    square bracket. *)
Fixpoint field_first (name : str) : str * str :=
  match name with
  | [] => ([], [])
  | c :: name' =>
      if (c =? 46) || (c =? 91) then ([], name)
      else let '(a, b) := field_first name' in (c :: a, b)
  end.

(** The text a completed field contributes.  An empty or numeric name
    indexes the positional arguments, of which there are none; any
    other name is looked up among the keywords.  Attribute and index
    lookups, conversions and format specifications on a bound name are
    not modelled: the templates of this program contain none. *)
Definition field_value (kwargs : list (str * str))
    (name : str) (conv : option N) (spec : str) : result str :=
  let '(first, rest) := field_first name in
  if forallb is_digit first then
    if digits_value first <=? 9223372036854775807
    then Raise IndexError
    else Raise (ValueError "Too many decimal digits in format string")
  else
    match kw_lookup kwargs first with
    | None => Raise (KeyError first)
    | Some v =>
        match rest, conv, spec with
        | [], None, [] => Ok v
        | _, _, _ => Raise Unmodelled
        end
    end.

(** One code point inside a field name. *)
Definition name_step (kwargs : list (str * str)) (name : str) (c : N)
    (out : str) : result (fmt_state * str) :=
  if c =? 123 then Raise (ValueError "unexpected '{' in field name")
  else if c =? 91 then Ok (FIndex (c :: name), out)
  else if c =? 125 then
    v ← field_value kwargs (rev name) None []; Ok (FLit, rev v ++ out)
  else if c =? 58 then Ok (FSpec name None 1 [], out)
  else if c =? 33 then Ok (FConv name, out)
  else Ok (FName (c :: name), out).

Definition fmt_step (kwargs : list (str * str)) (st : fmt_state) (c : N)
    (out : str) : result (fmt_state * str) :=
  match st with
  | FLit =>
      if c =? 123 then Ok (FOpen, out)
      else if c =? 125 then Ok (FClose, out)
      else Ok (FLit, c :: out)
  | FOpen =>
      if c =? 123 then Ok (FLit, c :: out) else name_step kwargs [] c out
  | FClose =>
      if c =? 125 then Ok (FLit, c :: out)
      else Raise (ValueError "Single '}' encountered in format string")
  | FName name => name_step kwargs name c out
  | FIndex name =>
      if c =? 93 then Ok (FName (c :: name), out)
      else Ok (FIndex (c :: name), out)
  | FConv name => Ok (FConvEnd name c, out)
  | FConvEnd name conv =>
      if c =? 125 then
        v ← field_value kwargs (rev name) (Some conv) [];
        Ok (FLit, rev v ++ out)
      else if c =? 58 then Ok (FSpec name (Some conv) 1 [], out)
      else Raise (ValueError "expected ':' after conversion specifier")
  | FSpec name conv depth spec =>
      if c =? 123 then Ok (FSpec name conv (S depth) (c :: spec), out)
      else if c =? 125 then
        match depth with
        | 1%nat =>
            v ← field_value kwargs (rev name) conv (rev spec);
            Ok (FLit, rev v ++ out)
        | _ => Ok (FSpec name conv (pred depth) (c :: spec), out)
        end
      else Ok (FSpec name conv depth (c :: spec), out)
  end.

(** What the scanner raises when the template ends in state [st]. *)
Definition fmt_end (st : fmt_state) (out : str) : result str :=
  match st with
  | FLit => Ok (rev out)
  | FOpen => Raise (ValueError "Single '{' encountered in format string")
  | FClose => Raise (ValueError "Single '}' encountered in format string")
  | FName _ | FIndex _ => Raise (ValueError "expected '}' before end of string")
  | FConv _ =>
      Raise (ValueError "end of string while looking for conversion specifier")
  | FConvEnd _ _ | FSpec _ _ _ _ =>
      Raise (ValueError "unmatched '{' in format spec")
  end.

Fixpoint format_go (kwargs : list (str * str)) (st : fmt_state) (out : str)
    (template : str) : result str :=
  match template with
  | [] => fmt_end st out
  | c :: template' =>
      match fmt_step kwargs st c out with
      | Ok (st', out') => format_go kwargs st' out' template'
      | Raise e => Raise e
      end
  end.

Definition py_format (template : str) (kwargs : list (str * str)) : result str :=
  format_go kwargs FLit [] template.

(** ** Paths and the disk *)

Definition endswith (p s : str) : bool := startswith (rev p) (rev s).

(** [os.path.join(a, b)] (POSIX) *)
Definition path_join (a b : str) : str :=
  if startswith (lit "/") b then b
  else if negb (truthy a) || endswith (lit "/") a then a ++ b
  else a ++ lit "/" ++ b.

(** [os.path.basename(p)]: what follows the last slash. *)
Definition basename (p : str) : str :=
  match rsplit1 47 p with
  | [_; b] => b
  | _ => p
  end.

(** The disk holds regular files, named by their path; directories are
    not files of their own and [os.makedirs(.., exist_ok=True)] changes
    nothing. *)
Abbreviation disk := (gmap (list N) (list Byte.byte)) (only parsing).

(** [os.path.exists(p)] *)
Definition path_exists (d : disk) (p : str) : bool := bool_decide (is_Some (d !! p)).

(** [file.save(path)]: the path is opened for writing, which raises
    for the empty path and for a path that names a directory. *)
Definition file_save (d : disk) (p : str) (content : list Byte.byte) : result disk :=
  if negb (truthy p) then Raise FileNotFoundError
  else if endswith (lit "/") p then Raise IsADirectoryError
  else Ok (<[p := content]> d).

(** [shutil.copy(src, dst)] for a [dst] that is not a directory:
    [copyfile] refuses to copy a file onto itself. *)
Definition shutil_copy (d : disk) (src dst : str) : result disk :=
  if bool_decide (src = dst) then Raise SameFileError
  else
    match d !! src with
    | None => Raise FileNotFoundError
    | Some content => Ok (<[dst := content]> d)
    end.

(** [os.remove(p)] of an existing file *)
Definition os_remove (d : disk) (p : str) : disk := delete p d.

(** ** The two SQLite tables

    A table is the list of its rows in the order of their insertion.
    [id INTEGER PRIMARY KEY] is the rowid: an [INSERT] that gives no id
    takes one more than the largest rowid in the table, or 1 in an
    empty table (the random choice SQLite makes once rowid 2^63-1 is
    in use is not modelled). *)

Local Open Scope Z_scope.

Record chat_row := {
  chat_id : Z;
  row_message : option str;       (* NULL when the request had no message *)
  row_response : str
}.

Record file_row := {
  file_id : Z;
  row_filename : str
}.

Definition next_rowid (ids : list Z) : Z :=
  match ids with
  | [] => 1
  | i :: rest => fold_right Z.max i rest + 1
  end.

(** [INSERT INTO chat_history (message, response) VALUES (?, ?)] *)
Definition insert_chat (t : list chat_row) (m : option str) (r : str) : list chat_row :=
  t ++ [{| chat_id := next_rowid (map chat_id t); row_message := m; row_response := r |}].

(** The rowids of a table grow along the order of insertion. *)
Definition ids_ascending (t : list chat_row) : Prop :=
  StronglySorted (fun a b => chat_id a < chat_id b) t.

(** [ORDER BY id ASC] *)
Fixpoint insert_by_id (r : chat_row) (rows : list chat_row) : list chat_row :=
  match rows with
  | [] => [r]
  | x :: rest =>
      if chat_id r <=? chat_id x then r :: rows else x :: insert_by_id r rest
  end.

Definition order_by_id (rows : list chat_row) : list chat_row :=
  fold_right insert_by_id [] rows.

(** The rows as a scan of the table meets them: SQLite keeps a rowid
    table in a B-tree keyed by rowid and a scan walks it in ascending
    rowid.  (SQL itself promises no order without [ORDER BY].) *)
Definition table_scan (t : list chat_row) : list chat_row := order_by_id t.

Definition history_columns (r : chat_row) : option str * str :=
  (row_message r, row_response r).

(** [SELECT message, response FROM chat_history] of [index] *)
Definition select_history (t : list chat_row) : list (option str * str) :=
  map history_columns (table_scan t).

(** [SELECT message, response FROM chat_history ORDER BY id ASC] of [ask] *)
Definition select_history_by_id (t : list chat_row) : list (option str * str) :=
  map history_columns (order_by_id (table_scan t)).

(** [ORDER BY id DESC LIMIT 1] *)
Fixpoint last_by_id (rows : list file_row) : option file_row :=
  match rows with
  | [] => None
  | r :: rest =>
      match last_by_id rest with
      | None => Some r
      | Some m => if file_id m <? file_id r then Some r else Some m
      end
  end.

(** [get_current_file] on the table [current_file] *)
Definition current_filename (t : list file_row) : option str :=
  row_filename <$> last_by_id t.

(** [DELETE FROM current_file] then [INSERT INTO current_file (filename)] *)
Definition replace_filename (filename : str) : list file_row :=
  [{| file_id := next_rowid []; row_filename := filename |}].

Local Close Scope Z_scope.

(** ** Decoded JSON and the libraries *)

Inductive json :=
| JNull
| JBool (b : bool)
| JNumber (text : str)
| JString (s : str)
| JArray (items : list json)
| JObject (members : list (str * json)).

(** A key that occurs twice keeps its last value in the decoded dict. *)
Fixpoint members_lookup (members : list (str * json)) (key : str) : option json :=
  match members with
  | [] => None
  | (k, v) :: rest =>
      match members_lookup rest key with
      | Some v' => Some v'
      | None => if decide (k = key) then Some v else None
      end
  end.

(** [obj.get(key, dflt)]: only a dict has the method. *)
Definition dict_get (obj : json) (key : str) (dflt : json) : result json :=
  match obj with
  | JObject members => Ok (default dflt (members_lookup members key))
  | _ => Raise AttributeError
  end.

(** [s.lower()]: written out on ASCII text; the Unicode case table
    decides for a string that has a code point outside ASCII. *)
Definition ascii_lower (c : N) : N :=
  if (65 <=? c) && (c <=? 90) then c + 32 else c.

(** What the program takes from outside the repository. *)
Class Runtime := {
  (** [os.path.abspath(os.path.dirname(__file__))] *)
  BASE_DIR : str;
  (** a parsed table, [pandas.DataFrame] *)
  DataFrame : Type;
  (** [pd.read_csv(path)], from the path and the bytes stored there *)
  read_csv : str -> list Byte.byte -> result DataFrame;
  (** [werkzeug.utils.secure_filename] *)
  secure_filename : str -> str;
  (** [str.lower] on a string that is not pure ASCII *)
  unicode_lower : str -> str;
  (** [json.loads] *)
  json_loads : str -> result json;
  (** [str(v)] of a decoded JSON value, as [format] inserts it *)
  py_str : json -> str;
  (** lines 270-283: the bar chart of labels, values and title drawn
      by matplotlib, saved as PNG and base64-encoded *)
  bar_chart_base64 : json -> json -> json -> result str
}.

Definition NL : str := [10].

Definition table_template : str := str_join NL (map quoted [
    "<!DOCTYPE html>";
    "<html>";
    "<head>";
    "<title>Patient Data Table</title>";
    "<meta name=`viewport` content=`width=device-width, initial-scale=1.0`>";
    "<style>";
    "body {";
    "font-family: Arial, sans-serif;";
    "margin: 0;";
    "padding: 20px;";
    "background-color: #f5f5f5;";
    "}";
    ".container {";
    "max-width: 1200px;";
    "margin: 0 auto;";
    "background-color: white;";
    "padding: 20px;";
    "border-radius: 8px;";
    "box-shadow: 0 2px 10px rgba(0,0,0,0.1);";
    "}";
    ".table-container {";
    "overflow-x: auto;";
    "}";
    "table {";
    "width: 100%;";
    "border-collapse: collapse;";
    "margin-top: 20px;";
    "}";
    "th, td {";
    "border: 1px solid #ddd;";
    "padding: 12px;";
    "text-align: left;";
    "}";
    "th {";
    "background-color: #f2f2f2;";
    "font-weight: bold;";
    "}";
    "tr:nth-child(even) {";
    "background-color: #f9f9f9;";
    "}";
    "tr:hover {";
    "background-color: #f1f1f1;";
    "}";
    "</style>";
    "</head>";
    "<body>";
    "<div class=`container`>";
    "<div class=`table-container`>";
    "{response}";
    "</div>";
    "</div>";
    "</body>";
    "</html>"
  ]%string).

Definition chart_template : str := str_join NL (map quoted [
    "<!DOCTYPE html>";
    "<html>";
    "<head>";
    "<title>{title}</title>";
    "<meta name=`viewport` content=`width=device-width, initial-scale=1.0`>";
    "<style>";
    "body {";
    "font-family: Arial, sans-serif;";
    "margin: 0;";
    "padding: 20px;";
    "background-color: #f5f5f5;";
    "}";
    ".container {";
    "max-width: 1200px;";
    "margin: 0 auto;";
    "background-color: white;";
    "padding: 20px;";
    "border-radius: 8px;";
    "box-shadow: 0 2px 10px rgba(0,0,0,0.1);";
    "}";
    "h1 {";
    "color: #333;";
    "text-align: center;";
    "margin-bottom: 20px;";
    "}";
    ".chart-container {";
    "text-align: center;";
    "margin-top: 20px;";
    "}";
    ".chart-container img {";
    "max-width: 100%;";
    "height: auto;";
    "border: 1px solid #ddd;";
    "border-radius: 4px;";
    "}";
    "</style>";
    "</head>";
    "<body>";
    "<div class=`container`>";
    "<h1>{title}</h1>";
    "<div class=`chart-container`>";
    "<img src=`data:image/png;base64,{plot_url}` alt=`{title}`>";
    "</div>";
    "</div>";
    "</body>";
    "</html>"
  ]%string).

(** [clean_html]: strip every line, drop the empty ones, join again. *)
Definition clean_html (html_content : str) : str :=
  let lines := map strip (str_split NL html_content) in
  let lines := filter (fun line => truthy line = true) lines in
  str_join NL lines.

(** The fixed answer of [ask] when no table is cached (line 144). *)
Definition NO_DATA_WARNING : str :=
  9888 :: lit " No file uploaded or data loaded. Please upload a CSV first.".

Definition ALLOWED_EXTENSIONS : list str := [lit "csv"; lit "db"].

(** ** The application *)

Section App.
Context {R : Runtime}.

Definition lower (s : str) : str :=
  if forallb (fun c => c <? 128) s then map ascii_lower s else unicode_lower s.

(** [allowed_file] (lines 47-48) *)
Definition allowed_file (filename : str) : bool :=
  contains (lit ".") filename &&
  match rsplit1 46 filename !! 1%nat with
  | Some ext => bool_decide (lower ext ∈ ALLOWED_EXTENSIONS)
  | None => false
  end.

Definition UPLOAD_FOLDER : str := path_join BASE_DIR (lit "uploads").

(** [STATIC_CSV] as line 87 leaves it: inside the upload folder. *)
Definition STATIC_CSV : str :=
  path_join (path_join BASE_DIR (lit "uploads")) (lit "patient_details2.csv").

(** The state the handlers share: the two module globals, the two
    tables of [chatbot_data.db] and the files on disk. *)
Record AppState := {
  stop_execution_flag : bool;
  data_cache : option DataFrame;
  chat_history : list chat_row;
  current_file : list file_row;
  files : disk
}.

Definition set_flag (b : bool) (s : AppState) : AppState :=
  {| stop_execution_flag := b; data_cache := data_cache s;
     chat_history := chat_history s; current_file := current_file s;
     files := files s |}.

Definition set_cache (c : option DataFrame) (s : AppState) : AppState :=
  {| stop_execution_flag := stop_execution_flag s; data_cache := c;
     chat_history := chat_history s; current_file := current_file s;
     files := files s |}.

Definition set_history (t : list chat_row) (s : AppState) : AppState :=
  {| stop_execution_flag := stop_execution_flag s; data_cache := data_cache s;
     chat_history := t; current_file := current_file s;
     files := files s |}.

Definition set_pointer (t : list file_row) (s : AppState) : AppState :=
  {| stop_execution_flag := stop_execution_flag s; data_cache := data_cache s;
     chat_history := chat_history s; current_file := t;
     files := files s |}.

Definition set_files (d : disk) (s : AppState) : AppState :=
  {| stop_execution_flag := stop_execution_flag s; data_cache := data_cache s;
     chat_history := chat_history s; current_file := current_file s;
     files := d |}.

(** [get_current_file] (lines 50-55) *)
Definition get_current_file (s : AppState) : option str :=
  current_filename (current_file s).

(** [set_current_file] (lines 57-62) *)
Definition set_current_file (filename : str) (s : AppState) : AppState :=
  set_pointer (replace_filename filename) s.

(** The truth value of [get_current_file()]: neither [None] nor empty. *)
Definition is_set (current : option str) : bool :=
  match current with
  | Some c => truthy c
  | None => false
  end.

(** [load_data] (lines 64-84) *)
Definition load_data (s : AppState) : AppState :=
  match get_current_file s with
  | Some current =>
      if truthy current then
        let file_path := path_join UPLOAD_FOLDER current in
        match files s !! file_path with
        | Some content =>
            match read_csv file_path content with
            | Ok df => set_cache (Some df) s
            | Raise _ => set_cache None s
            end
        | None => set_cache None s
        end
      else set_cache None s
  | None => set_cache None s
  end.

(** [bootstrap_dataset] (lines 89-101).  An exception leaves the
    function with the state reached so far. *)
Definition bootstrap_dataset (s : AppState) : result () * AppState :=
  let current := get_current_file s in
  let current_path :=
    if is_set current then path_join UPLOAD_FOLDER <$> current else None in
  let needs_seed :=
    negb (is_set current) ||
    (is_set current &&
     negb (from_option (path_exists (files s)) false current_path)) in
  if needs_seed then
    if path_exists (files s) STATIC_CSV then
      let dest := path_join UPLOAD_FOLDER (basename STATIC_CSV) in
      match shutil_copy (files s) STATIC_CSV dest with
      | Raise e => (Raise e, s)
      | Ok d => (Ok (), set_current_file (basename STATIC_CSV) (set_files d s))
      end
    else (Ok (), s)
  else (Ok (), s).

(** Lines 103-107: an exception of the bootstrap is printed and
    [load_data] is then not reached. *)
Definition startup (s : AppState) : AppState :=
  match bootstrap_dataset s with
  | (Ok _, s1) => load_data s1
  | (Raise _, s1) => s1
  end.

(** *** The response classifier (lines 179-351) *)

Definition table_page (response : str) : result str :=
  formatted_template ← py_format table_template [(lit "response", response)];
  Ok (clean_html formatted_template).

(** Line 256: [response.split("CHART_DATA:")[1].strip()] *)
Definition chart_str (response : str) : result str :=
  match str_split (lit "CHART_DATA:") response !! 1%nat with
  | Some part => Ok (strip part)
  | None => Raise IndexError
  end.

Definition chart_page (response : str) : result str :=
  chart_str ← chart_str response;
  chart_json ← json_loads chart_str;
  labels ← dict_get chart_json (lit "labels") (JArray []);
  values ← dict_get chart_json (lit "values") (JArray []);
  title ← dict_get chart_json (lit "title") (JString (lit "Chart"));
  plot_url ← bar_chart_base64 labels values title;
  formatted_template ←
    py_format chart_template
      [(lit "title", py_str title); (lit "plot_url", plot_url)];
  Ok (clean_html formatted_template).

(** The payload of the answer; every [except] falls back to the raw
    response. *)
Definition render (response : str) : str :=
  if contains (lit "<table") response then
    match table_page response with
    | Ok clean_template => clean_template
    | Raise _ => response
    end
  else if contains (lit "CHART_DATA:") response then
    match chart_page response with
    | Ok clean_template => clean_template
    | Raise _ => response
    end
  else response.

(** *** The routes other than [/ask] *)

(** [index] (lines 120-127): what the page is rendered from. *)
Definition index (s : AppState) : list (option str * str) * option str :=
  (select_history (chat_history s), get_current_file s).

(** [stop_execution] (lines 361-365) *)
Definition stop_execution (s : AppState) : AppState := set_flag true s.

(** The uploaded file of a multipart form. *)
Record FileStorage := {
  upload_filename : str;
  upload_content : list Byte.byte
}.

Inductive reply :=
| Redirect                      (* redirect(url_for('index')) *)
| InternalError (e : exn).      (* an exception no handler catches *)

(** [upload_file] (lines 367-382); [form] is [request.files.get('file')]. *)
Definition upload_file (form : option FileStorage) (s : AppState) : reply * AppState :=
  match form with
  | None => (Redirect, s)
  | Some file =>
      if truthy (upload_filename file) && allowed_file (upload_filename file) then
        let filename := secure_filename (upload_filename file) in
        let save_path := path_join UPLOAD_FOLDER filename in
        match file_save (files s) save_path (upload_content file) with
        | Raise e => (InternalError e, s)
        | Ok d =>
            let s := set_files d s in
            let s := set_current_file filename s in
            let s := load_data s in
            (Redirect, set_history [] s)
        end
      else (Redirect, s)
  end.

(** [delete_file] (lines 384-399) *)
Definition delete_file (s : AppState) : AppState :=
  match get_current_file s with
  | Some current =>
      if truthy current then
        let file_path := path_join UPLOAD_FOLDER current in
        let s :=
          if path_exists (files s) file_path
          then set_files (os_remove (files s) file_path) s else s in
        set_cache None (set_history [] (set_pointer [] s))
      else s
  | None => s
  end.

(** [clear_chat] (lines 401-406) *)
Definition clear_chat (s : AppState) : AppState := set_history [] s.

(** *** [/ask] (lines 129-359)

    The handler runs in a thread of its own while other requests are
    served, so it is modelled as a machine that takes one step per
    access to the shared state; between two steps the other threads
    may change that state. *)

(** The body of the request as line 136 sees it. *)
Inductive ask_body :=
| JsonObject (message : option str)   (* a JSON object; its 'message' or None *)
| NotAnObject (text : str).           (* request.json.get raises; str(e) *)

(** The JSON the handler returns. *)
Inductive ask_response :=
| Answer (response : str)             (* {'response': ...} *)
| Stopped.                            (* {'status': 'stopped', 'response': None} *)

(** How the call of the answering engine inside the [try] of lines
    156-164 ends. *)
Inductive engine_outcome :=
| Returned (response : str)
| Failed (text : str).                (* an exception; str(e) *)

(** What surrounds one request: the other threads, the engine as it
    answers this request, and whether the [INSERT] of line 173 fails. *)
Record world := {
  concurrent : nat -> AppState -> AppState;
  get_chat_response :
    option str -> DataFrame -> list (option str * str) -> engine_outcome;
  insert_raises : bool
}.

(** What a request does beyond its reply. *)
Inductive effect :=
| EngineCalled (user_input : option str) (df : DataFrame)
    (session_history : list (option str * str))
| HistoryInserted (user_input : option str) (response : str).

Inductive ask_pc :=
| AtReset (body : ask_body)                              (* line 132 *)
| AtInput (body : ask_body)                              (* line 136 *)
| AtCache (user_input : option str)                      (* lines 139-144 *)
| AtHistory (user_input : option str) (df : DataFrame)   (* lines 146-149 *)
| AtCheck1 (user_input : option str) (df : DataFrame)
    (session_history : list (option str * str))          (* lines 151-153 *)
| AtEngine (user_input : option str) (df : DataFrame)
    (session_history : list (option str * str))          (* lines 156-164 *)
| AtCheck2 (user_input : option str) (response : str)    (* lines 166-168 *)
| AtPersist (user_input : option str) (response : str)   (* lines 170-177 *)
| AtRender (response : str)                              (* lines 179-351 *)
| Done (r : ask_response).

Definition ask_step (w : world) (pc : ask_pc) (s : AppState)
    : ask_pc * AppState * list effect :=
  match pc with
  | AtReset body => (AtInput body, set_flag false s, [])
  | AtInput (JsonObject user_input) => (AtCache user_input, s, [])
  | AtInput (NotAnObject text) => (Done (Answer (lit "Error: " ++ text)), s, [])
  | AtCache user_input =>
      match data_cache s with
      | None => (Done (Answer NO_DATA_WARNING), s, [])
      | Some df => (AtHistory user_input df, s, [])
      end
  | AtHistory user_input df =>
      (AtCheck1 user_input df (select_history_by_id (chat_history s)), s, [])
  | AtCheck1 user_input df session_history =>
      if stop_execution_flag s then (Done Stopped, s, [])
      else (AtEngine user_input df session_history, s, [])
  | AtEngine user_input df session_history =>
      match get_chat_response w user_input df session_history with
      | Returned response =>
          (AtCheck2 user_input response, s,
           [EngineCalled user_input df session_history])
      | Failed text =>
          (Done (Answer (lit "Error getting response: " ++ text)), s,
           [EngineCalled user_input df session_history])
      end
  | AtCheck2 user_input response =>
      if stop_execution_flag s then (Done Stopped, s, [])
      else (AtPersist user_input response, s, [])
  | AtPersist user_input response =>
      if insert_raises w then (AtRender response, s, [])
      else (AtRender response,
            set_history (insert_chat (chat_history s) user_input response) s,
            [HistoryInserted user_input response])
  | AtRender response => (Done (Answer (render response)), s, [])
  | Done r => (Done r, s, [])
  end.

Definition finished (pc : ask_pc) : bool :=
  match pc with Done _ => true | _ => false end.

(** The request from its [k]-th step on: before each step the other
    threads act. *)
Fixpoint ask_exec (w : world) (k fuel : nat) (pc : ask_pc) (s : AppState)
    : ask_pc * AppState * list effect :=
  match fuel with
  | O => (pc, s, [])
  | S fuel' =>
      if finished pc then (pc, s, [])
      else
        let '(pc1, s1, e) := ask_step w pc (concurrent w k s) in
        let '(pc2, s2, es) := ask_exec w (S k) fuel' pc1 s1 in
        (pc2, s2, e ++ es)
  end.

(** The steps the request takes, each with the state it finds. *)
Fixpoint ask_seen (w : world) (k fuel : nat) (pc : ask_pc) (s : AppState)
    : list (ask_pc * AppState) :=
  match fuel with
  | O => []
  | S fuel' =>
      if finished pc then []
      else
        let s0 := concurrent w k s in
        let '(pc1, s1, _) := ask_step w pc s0 in
        (pc, s0) :: ask_seen w (S k) fuel' pc1 s1
  end.

(** No path through the handler is longer than nine steps. *)
Definition ask_steps : nat := 9.

Definition ask (w : world) (body : ask_body) (s : AppState)
    : ask_pc * AppState * list effect :=
  ask_exec w 0 ask_steps (AtReset body) s.

Definition ask_trace (w : world) (body : ask_body) (s : AppState)
    : list (ask_pc * AppState) :=
  ask_seen w 0 ask_steps (AtReset body) s.

(** The two places where the handler reads the cancel flag. *)
Definition is_checkpoint (pc : ask_pc) : bool :=
  match pc with
  | AtCheck1 _ _ _ | AtCheck2 _ _ => true
  | _ => false
  end.

Definition is_insert (e : effect) : bool :=
  match e with HistoryInserted _ _ => true | _ => false end.

Definition is_engine_call (e : effect) : bool :=
  match e with EngineCalled _ _ _ => true | _ => false end.

Definition answer_of (pc : ask_pc) : option ask_response :=
  match pc with Done r => Some r | _ => None end.

(** The request finds the cancel flag set at one of its checkpoints. *)
Definition cancelled (w : world) (body : ask_body) (s : AppState) : bool :=
  existsb (fun c => is_checkpoint c.1 && stop_execution_flag c.2)
    (ask_trace w body s).

(** The steps a request still has before it. *)
Definition rank (pc : ask_pc) : nat :=
  match pc with
  | AtReset _ => 9
  | AtInput _ => 8
  | AtCache _ => 7
  | AtHistory _ _ => 6
  | AtCheck1 _ _ _ => 5
  | AtEngine _ _ _ => 4
  | AtCheck2 _ _ => 3
  | AtPersist _ _ => 2
  | AtRender _ => 1
  | Done _ => 0
  end.

(** A world in which no other thread runs. *)
Definition alone (engine : option str -> DataFrame -> list (option str * str) -> engine_outcome)
    : world :=
  {| concurrent := fun _ s => s; get_chat_response := engine;
     insert_raises := false |}.

(** *** The states the server can be in

    A new database and any disk at start; afterwards any request, and
    any single step of an [/ask] request that is in flight. *)
Definition empty_database (d : disk) : AppState :=
  {| stop_execution_flag := false; data_cache := None;
     chat_history := []; current_file := []; files := d |}.

(** A new process on the tables and the disk the last one left. *)
Definition restart (s : AppState) : AppState :=
  startup (set_flag false (set_cache None s)).

Inductive reachable : AppState -> Prop :=
| reach_start d : reachable (startup (empty_database d))
| reach_restart s : reachable s -> reachable (restart s)
| reach_stop s : reachable s -> reachable (stop_execution s)
| reach_upload s form : reachable s -> reachable (upload_file form s).2
| reach_delete s : reachable s -> reachable (delete_file s)
| reach_clear s : reachable s -> reachable (clear_chat s)
| reach_ask s w pc : reachable s -> reachable (ask_step w pc s).1.2.

End App.

(** ** Two conditions on the shared state *)

Section Conditions.
Context {R : Runtime}.

(** The pointer table is empty or holds one row, numbered 1, with a
    file name that is not empty. *)
Definition pointer_ok (s : AppState) : Prop :=
  current_file s = [] \/
  exists filename,
    truthy filename = true /\ current_file s = replace_filename filename.

(** A cached table is the parse of the file the pointer names. *)
Definition cache_ok (s : AppState) : Prop :=
  forall df, data_cache s = Some df ->
  exists current content,
    get_current_file s = Some current /\ truthy current = true /\
    files s !! path_join UPLOAD_FOLDER current = Some content /\
    read_csv (path_join UPLOAD_FOLDER current) content = Ok df.

End Conditions.

(** ** A runtime to compute with

    The properties below hold for every [Runtime].  To run the model on
    concrete requests this module fixes one: small stand-ins for the
    libraries, exact on the inputs of the examples. *)
Module Demo.

Definition text_of_bytes (content : list Byte.byte) : str :=
  map (fun b => N_of_ascii (ascii_of_byte b)) content.

Definition bytes_of_text (s : string) : list Byte.byte :=
  map byte_of_ascii (list_ascii_of_string s).

(** A table is its lines, each cut at the commas; an empty file has no
    columns to parse. *)
Definition csv_lines (path : str) (content : list Byte.byte) : result (list (list str)) :=
  match content with
  | [] => Raise (LibraryError (lit "No columns to parse from file"))
  | _ => Ok (map (str_split (lit ",")) (str_split NL (text_of_bytes content)))
  end.

(** [s.split()]: the runs of code points between white space. *)
Fixpoint words_go (cur : str) (s : str) : list str :=
  match s with
  | [] => if truthy cur then [rev cur] else []
  | c :: s' =>
      if isspace c
      then (if truthy cur then [rev cur] else []) ++ words_go [] s'
      else words_go (c :: cur) s'
  end.

Definition filename_char (c : N) : bool :=
  ((48 <=? c) && (c <=? 57)) || ((65 <=? c) && (c <=? 90)) ||
  ((97 <=? c) && (c <=? 122)) || (c =? 95) || (c =? 46) || (c =? 45).

Fixpoint lstrip_dots (s : str) : str :=
  match s with
  | [] => []
  | c :: s' => if (c =? 46) || (c =? 95) then lstrip_dots s' else s
  end.

(** [secure_filename] on POSIX without the Unicode normalisation:
    exact on ASCII names. *)
Definition ascii_secure_filename (filename : str) : str :=
  let ascii := filter (fun c => (c <? 128) = true) filename in
  let spaced := map (fun c => if c =? 47 then 32 else c) ascii in
  let joined := str_join (lit "_") (words_go [] spaced) in
  let kept := filter (fun c => filename_char c = true) joined in
  rev (lstrip_dots (rev (lstrip_dots kept))).

(** A decoder for JSON text without escapes, fractions and exponents. *)
Definition json_space (c : N) : bool :=
  (c =? 32) || (c =? 9) || (c =? 10) || (c =? 13).

Fixpoint skip_space (s : str) : str :=
  match s with
  | [] => []
  | c :: s' => if json_space c then skip_space s' else s
  end.

Fixpoint scan_string (s : str) : option (str * str) :=
  match s with
  | [] => None
  | c :: s' =>
      if c =? 34 then Some ([], s')
      else if (c =? 92) || (c <? 32) then None
      else '(t, r) ← scan_string s'; Some (c :: t, r)
  end.

Fixpoint scan_digits (s : str) : str * str :=
  match s with
  | [] => ([], [])
  | c :: s' =>
      if is_digit c then let '(d, r) := scan_digits s' in (c :: d, r)
      else ([], s)
  end.

Definition scan_int (s : str) : option (str * str) :=
  let '(sign, s1) :=
    match s with
    | c :: r => if c =? 45 then ([c], r) else ([], s)
    | [] => ([], s)
    end in
  let '(ds, r) := scan_digits s1 in
  let plain :=
    match r with
    | c :: _ => negb ((c =? 46) || (c =? 101) || (c =? 69))
    | [] => true
    end in
  match ds with
  | [] => None
  | [_] => if plain then Some (sign ++ ds, r) else None
  | d :: _ => if plain && negb (d =? 48) then Some (sign ++ ds, r) else None
  end.

Fixpoint parse_value (fuel : nat) (s : str) : option (json * str) :=
  match fuel with
  | O => None
  | S fuel' =>
      let s := skip_space s in
      if startswith (lit "null") s then Some (JNull, drop 4 s)
      else if startswith (lit "true") s then Some (JBool true, drop 4 s)
      else if startswith (lit "false") s then Some (JBool false, drop 5 s)
      else
        match s with
        | [] => None
        | c :: r =>
            if c =? 34 then '(t, r1) ← scan_string r; Some (JString t, r1)
            else if c =? 91 then
              match skip_space r with
              | c1 :: r1 =>
                  if c1 =? 93 then Some (JArray [], r1)
                  else '(items, r2) ← parse_items fuel' r; Some (JArray items, r2)
              | [] => None
              end
            else if c =? 123 then
              match skip_space r with
              | c1 :: r1 =>
                  if c1 =? 125 then Some (JObject [], r1)
                  else '(ms, r2) ← parse_members fuel' r; Some (JObject ms, r2)
              | [] => None
              end
            else '(t, r1) ← scan_int s; Some (JNumber t, r1)
        end
  end
with parse_items (fuel : nat) (s : str) : option (list json * str) :=
  match fuel with
  | O => None
  | S fuel' =>
      '(v, r) ← parse_value fuel' s;
      match skip_space r with
      | c :: r1 =>
          if c =? 44 then '(vs, r2) ← parse_items fuel' r1; Some (v :: vs, r2)
          else if c =? 93 then Some ([v], r1)
          else None
      | [] => None
      end
  end
with parse_members (fuel : nat) (s : str) : option (list (str * json) * str) :=
  match fuel with
  | O => None
  | S fuel' =>
      match skip_space s with
      | c :: r =>
          if c =? 34 then
            '(k, r1) ← scan_string r;
            match skip_space r1 with
            | c1 :: r2 =>
                if c1 =? 58 then
                  '(v, r3) ← parse_value fuel' r2;
                  match skip_space r3 with
                  | c3 :: r4 =>
                      if c3 =? 44 then
                        '(ms, r5) ← parse_members fuel' r4; Some ((k, v) :: ms, r5)
                      else if c3 =? 125 then Some ([(k, v)], r4)
                      else None
                  | [] => None
                  end
                else None
            | [] => None
            end
          else None
      | [] => None
      end
  end.

Definition decode_json (s : str) : result json :=
  match parse_value (2 * length s + 2) s with
  | Some (v, r) =>
      if truthy (skip_space r) then Raise (LibraryError (lit "Extra data"))
      else Ok v
  | None => Raise (LibraryError (lit "Expecting value"))
  end.

Fixpoint repr (v : json) : str :=
  match v with
  | JNull => lit "None"
  | JBool true => lit "True"
  | JBool false => lit "False"
  | JNumber t => t
  | JString s => lit "'" ++ s ++ lit "'"
  | JArray items => lit "[" ++ str_join (lit ", ") (map repr items) ++ lit "]"
  | JObject members =>
      lit "{" ++
      str_join (lit ", ")
        (map (fun kv => lit "'" ++ kv.1 ++ lit "': " ++ repr kv.2) members) ++
      lit "}"
  end.

Definition text_of_json (v : json) : str :=
  match v with
  | JString s => s
  | _ => repr v
  end.

(** [ax.bar] wants as many values as labels.  The picture itself is
    not computed: the text returned is the base64 form of the eight
    bytes every PNG file starts with. *)
Definition png_signature_chart (labels values title : json) : result str :=
  match labels, values with
  | JArray ls, JArray vs =>
      if bool_decide (length ls = length vs) then Ok (lit "iVBORw0KGgo=")
      else Raise (LibraryError (lit "shape mismatch"))
  | _, _ => Raise (LibraryError (lit "shape mismatch"))
  end.

Definition runtime : Runtime := {|
  BASE_DIR := lit "/app";
  DataFrame := list (list str);
  read_csv := csv_lines;
  secure_filename := ascii_secure_filename;
  unicode_lower := map ascii_lower;
  json_loads := decode_json;
  py_str := text_of_json;
  bar_chart_base64 := png_signature_chart
|}.

End Demo.

(** ** Requests to compute with *)
Module Scenario.
Section Scenario.
#[local] Existing Instance Demo.runtime.

Definition patients_csv : list Byte.byte :=
  Demo.bytes_of_text "name,age" ++ [Byte.x0a] ++ Demo.bytes_of_text "Ann,41".

(** A server started on a new database and an empty upload folder. *)
Definition no_data : AppState := startup (empty_database ∅).

(** The same server after [patients.csv] was uploaded. *)
Definition loaded : AppState :=
  (upload_file
     (Some {| upload_filename := lit "patients.csv";
              upload_content := patients_csv |}) no_data).2.

(** An engine that answers every question with the same text. *)
Definition says (response : str)
    : option str -> DataFrame -> list (option str * str) -> engine_outcome :=
  fun _ _ _ => Returned response.

(** [/stop_execution] is served just before step [n] of the request. *)
Definition stop_at (n : nat) (response : str) : world :=
  {| concurrent := fun k s => if (k =? n)%nat then stop_execution s else s;
     get_chat_response := says response;
     insert_raises := false |}.

Definition question : ask_body := JsonObject (Some (lit "How old is Ann?")).

End Scenario.
End Scenario.

(** * Properties *)

(** ** Strings and templates *)

Lemma truthy_nonempty (s : str) : truthy s = true <-> s ≠ [].
Proof. destruct s; simpl; split; congruence. Qed.

Lemma contains_nil (sub : str) : sub ≠ [] -> contains sub [] = false.
Proof. destruct sub; [congruence | reflexivity]. Qed.

Lemma endswith_app (p a : str) : endswith p (a ++ p) = true.
Proof.
  unfold endswith. rewrite rev_app_distr.
  induction (rev p) as [|c r IH]; simpl; [reflexivity |].
  rewrite N.eqb_refl. exact IH.
Qed.

Lemma rsplit1_absent (c : N) (s : str) : c ∉ s -> rsplit1 c s = [s].
Proof.
  induction s as [|x s IH]; intros Hc; simpl; [reflexivity |].
  rewrite IH by (intros ?; apply Hc; now right).
  destruct (N.eqb_spec x c) as [->|]; [|reflexivity].
  exfalso. apply Hc. now left.
Qed.

Lemma rsplit1_last (c : N) (a b : str) :
  c ∉ b -> rsplit1 c (a ++ c :: b) = [a; b].
Proof.
  intros Hb. induction a as [|x a IH]; simpl.
  - rewrite rsplit1_absent by assumption. now rewrite N.eqb_refl.
  - now rewrite IH.
Qed.

Lemma basename_join (dir name : str) :
  47 ∉ name -> basename (dir ++ 47 :: name) = name.
Proof. intros H. unfold basename. now rewrite rsplit1_last. Qed.

(** Formatting the table template stops at the first brace of the
    style sheet: the text up to the colon is taken as a field name. *)
Lemma table_template_raises (response : str) :
  py_format table_template [(lit "response", response)]
  = Raise (KeyError (NL ++ lit "font-family")).
Proof. reflexivity. Qed.

Lemma chart_template_raises (title plot_url : str) :
  py_format chart_template [(lit "title", title); (lit "plot_url", plot_url)]
  = Raise (KeyError (NL ++ lit "font-family")).
Proof. reflexivity. Qed.

(** Case analysis on the first call of a sequence of calls that may
    raise. *)
Ltac bind_case :=
  match goal with
  | |- context [mbind _ ?r] =>
      destruct r as [?|?]; cbn [mbind result_bind]
  end.

Section Classifier.
Context {R : Runtime}.

Lemma table_page_raises (response : str) :
  table_page response = Raise (KeyError (NL ++ lit "font-family")).
Proof. unfold table_page. now rewrite table_template_raises. Qed.

Lemma chart_page_raises (response : str) : exists e, chart_page response = Raise e.
Proof.
  unfold chart_page.
  do 6 (bind_case; [|by eexists]).
  rewrite chart_template_raises. by eexists.
Qed.

(** Both templates fail to format, so every branch of the classifier
    ends with the raw response. *)
Lemma render_raw (response : str) : render response = response.
Proof.
  unfold render.
  destruct (contains (lit "<table") response).
  - now rewrite table_page_raises.
  - destruct (contains (lit "CHART_DATA:") response); [|reflexivity].
    destruct (chart_page_raises response) as [e ->]. reflexivity.
Qed.

End Classifier.

Lemma split_go_nonempty (sep : str) (s : str) :
  forall skip cur, split_go sep skip cur s ≠ [].
Proof.
  induction s as [|c s IH]; intros skip cur; simpl; [discriminate |].
  destruct skip; [|apply IH].
  destruct (startswith sep (c :: s)); [discriminate | apply IH].
Qed.

(** A text that contains the separator splits into two parts at least. *)
Lemma str_split_second (sep s : str) :
  sep ≠ [] -> contains sep s = true -> is_Some (str_split sep s !! 1%nat).
Proof.
  intros Hsep. unfold str_split. generalize (@nil N) as cur.
  induction s as [|c s IH]; intros cur H.
  - rewrite contains_nil in H by assumption. discriminate.
  - cbn [contains] in H. cbn [split_go].
    destruct (startswith sep (c :: s)) eqn:Hp.
    + cbn [lookup list_lookup].
      destruct (split_go sep (length sep - 1) [] s) eqn:Hs;
        [now apply split_go_nonempty in Hs | now eexists].
    + simpl in H. now apply IH.
Qed.

Section Answering.
Context {R : Runtime}.

Lemma chart_str_defined (response : str) :
  contains (lit "CHART_DATA:") response = true ->
  exists text, chart_str response = Ok text.
Proof.
  intros H. apply str_split_second in H as [part Hpart]; [|discriminate].
  unfold chart_str. rewrite Hpart. now eexists.
Qed.

(** *** The machine of [/ask] *)

Lemma ask_step_rank (w : world) (pc : ask_pc) (s : AppState) :
  finished pc = false -> (rank (ask_step w pc s).1.1 < rank pc)%nat.
Proof.
  destruct pc as [b|b| | | | | | | |]; simpl; try discriminate; intros _;
    repeat match goal with
      | |- context [match ?x with _ => _ end] => destruct x; simpl
      end; lia.
Qed.

Lemma rank_zero (pc : ask_pc) : rank pc = 0%nat -> finished pc = true.
Proof. destruct pc; simpl; congruence. Qed.

Lemma ask_exec_finishes (w : world) (fuel : nat) :
  forall k pc s, (rank pc <= fuel)%nat ->
  finished (ask_exec w k fuel pc s).1.1 = true.
Proof.
  induction fuel as [|fuel IH]; intros k pc s Hr; simpl.
  - apply rank_zero. lia.
  - destruct (finished pc) eqn:Hf; [exact Hf |].
    pose proof (ask_step_rank w pc (concurrent w k s) Hf) as Hlt.
    destruct (ask_step w pc (concurrent w k s)) as [[pc1 s1] e].
    specialize (IH (S k) pc1 s1). simpl in Hlt.
    destruct (ask_exec w (S k) fuel pc1 s1) as [[pc2 s2] es].
    simpl in *. apply IH. lia.
Qed.

(** Every request is answered: nine steps reach [Done]. *)
Lemma ask_returns (w : world) (body : ask_body) (s : AppState) :
  exists r, (ask w body s).1.1 = Done r.
Proof.
  pose proof (ask_exec_finishes w ask_steps 0 (AtReset body) s) as H.
  unfold ask. destruct (ask_exec w 0 ask_steps (AtReset body) s).1.1;
    simpl in H; try (specialize (H ltac:(unfold ask_steps; lia)); discriminate).
  now eexists.
Qed.

(** Only the step at line 173 writes to the log. *)
Lemma ask_step_history (w : world) (pc : ask_pc) (s : AppState) :
  existsb is_insert (ask_step w pc s).2 = false ->
  chat_history (ask_step w pc s).1.2 = chat_history s.
Proof.
  destruct pc as [b|b| | | | | | | |]; simpl;
    repeat match goal with
      | |- context [match ?x with _ => _ end] => destruct x; simpl
      end; congruence.
Qed.

(** Past the second checkpoint no checkpoint is left. *)
Lemma no_checkpoint_after (w : world) (fuel k : nat) (pc : ask_pc) (s : AppState) :
  (rank pc <= 1)%nat ->
  existsb (fun c : ask_pc * AppState => is_checkpoint c.1 && stop_execution_flag c.2)
    (ask_seen w k fuel pc s) = false.
Proof.
  intros Hr. destruct pc; simpl in Hr; try lia.
  - destruct fuel as [|[|fuel]]; reflexivity.
  - destruct fuel; reflexivity.
Qed.

Lemma cancelled_exec (w : world) (fuel : nat) :
  forall k pc s,
  existsb (fun c : ask_pc * AppState => is_checkpoint c.1 && stop_execution_flag c.2)
    (ask_seen w k fuel pc s) = true ->
  (ask_exec w k fuel pc s).1.1 = Done Stopped /\
  existsb is_insert (ask_exec w k fuel pc s).2 = false /\
  ((forall j x, chat_history (concurrent w j x) = chat_history x) ->
   chat_history (ask_exec w k fuel pc s).1.2 = chat_history s).
Proof.
  induction fuel as [|fuel IH]; intros k pc s H; [discriminate |].
  cbn [ask_seen ask_exec] in *.
  destruct (finished pc) eqn:Hf; [discriminate |].
  set (s0 := concurrent w k s) in *.
  destruct (is_checkpoint pc && stop_execution_flag s0) eqn:Hc.
  - (* the flag is set at this checkpoint *)
    apply andb_prop in Hc as [Hp Hflag].
    destruct pc; try discriminate; cbn [ask_step]; rewrite Hflag;
      (destruct fuel; cbn; repeat split; intros Henv; apply Henv).
  - (* a later checkpoint finds it set *)
    pose proof (ask_step_history w pc s0) as Hlog.
    destruct (ask_step w pc s0) as [[pc1 s1] e] eqn:Hstep.
    cbn [existsb fst snd] in H. rewrite Hc in H. cbn [orb] in H.
    assert (He : existsb is_insert e = false).
    { destruct pc; cbn [ask_step] in Hstep;
        repeat match type of Hstep with
          | context [match ?x with _ => _ end] => destruct x
          end; inversion Hstep; subst; try reflexivity.
      rewrite no_checkpoint_after in H by (simpl; lia). discriminate. }
    destruct (IH (S k) pc1 s1 H) as (Hdone & Hins & Hkeep).
    destruct (ask_exec w (S k) fuel pc1 s1) as [[pc2 s2] es].
    cbn [fst snd] in *. repeat split.
    + exact Hdone.
    + rewrite existsb_app, He, Hins. reflexivity.
    + intros Henv. rewrite (Hkeep Henv), (Hlog He). apply Henv.
Qed.

End Answering.

Section AskClaims.
Context {R : Runtime}.

(** C1: when an [/ask] request finds the cancel flag set at one of its
    two checkpoints (before the engine is called, or after it returned
    and before the turn is stored), the request answers
    [{status: "stopped", response: null}] and inserts no row into
    [chat_history]: the log it leaves is the log it found, whatever the
    other threads do to the rest of the state. *)
Theorem ask_cancelled_is_stopped (w : world) (body : ask_body) (s : AppState) :
  cancelled w body s = true ->
  (ask w body s).1.1 = Done Stopped /\
  existsb is_insert (ask w body s).2 = false /\
  ((forall k x, chat_history (concurrent w k x) = chat_history x) ->
   chat_history (ask w body s).1.2 = chat_history s).
Proof. intros H. now apply cancelled_exec. Qed.


(** The engine is not called either when the body is no JSON object. *)
Lemma ask_bad_body (w : world) (text : str) (s : AppState) :
  (ask w (NotAnObject text) s).1.1 = Done (Answer (lit "Error: " ++ text)) /\
  (ask w (NotAnObject text) s).2 = [].
Proof. split; reflexivity. Qed.

(** C4: when the response holds the chart marker and no table tag, and
    the text after the marker is not valid JSON, [json.loads] raises
    inside the rendering step, the exception is caught there, and the
    payload of the answer is the raw response; the step changes no
    state. *)
Theorem chart_bad_json_falls_back (w : world) (s : AppState)
    (response text : str) (e : exn) :
  contains (lit "<table") response = false ->
  contains (lit "CHART_DATA:") response = true ->
  chart_str response = Ok text ->
  json_loads text = Raise e ->
  chart_page response = Raise e /\
  ask_step w (AtRender response) s = (Done (Answer response), s, []).
Proof.
  intros Htable Hchart Htext Hjson.
  assert (Hpage : chart_page response = Raise e).
  { unfold chart_page. rewrite Htext. cbn [mbind result_bind].
    rewrite Hjson. reflexivity. }
  split; [exact Hpage |].
  cbn [ask_step]. unfold render. now rewrite Htable, Hchart, Hpage.
Qed.

End AskClaims.

(** C9: the payload the rendering step produces is a function of the
    raw response alone.  Two runs on the same response give the same
    payload whatever the shared state, the world around the request
    and the libraries are, and the step leaves the state as it found
    it. *)
Theorem render_depends_on_response_only (R1 R2 : Runtime)
    (w1 : @world R1) (w2 : @world R2) (s1 : @AppState R1) (s2 : @AppState R2)
    (response : str) :
  answer_of (ask_step w1 (AtRender response) s1).1.1
  = answer_of (ask_step w2 (AtRender response) s2).1.1 /\
  (ask_step w1 (AtRender response) s1).1.2 = s1 /\
  (ask_step w1 (AtRender response) s1).2 = [].
Proof.
  cbn [ask_step fst snd answer_of]. now rewrite !render_raw.
Qed.

(** C3 (the code departs from the claim): a response with both a table
    tag and the chart marker takes the table branch, but formatting
    the table template raises [KeyError], so the payload is the raw
    response and not the HTML page wrapped around it. *)
Theorem table_answer_is_not_wrapped :
  let raw := lit "<table><tr><td>1</td></tr></table> CHART_DATA: {}" in
  contains (lit "<table") raw = true /\
  contains (lit "CHART_DATA:") raw = true /\
  table_page raw = Raise (KeyError (NL ++ lit "font-family")) /\
  render (R := Demo.runtime) raw = raw /\
  contains (lit "<!DOCTYPE html>") (render (R := Demo.runtime) raw) = false.
Proof. vm_compute. repeat split. Qed.

(** Witness of C1: the stop request arrives before the first
    checkpoint. *)
Lemma ask_cancelled_is_stopped_witness :
  cancelled (Scenario.stop_at 4 (lit "41")) Scenario.question Scenario.loaded = true /\
  (ask (Scenario.stop_at 4 (lit "41")) Scenario.question Scenario.loaded).1.1
  = Done Stopped.
Proof.
  split; [vm_compute; reflexivity |].
  apply (ask_cancelled_is_stopped (R := Demo.runtime)). vm_compute. reflexivity.
Defined.

(** The same when the stop request arrives while the engine works. *)
Example ask_cancelled_during_engine :
  (ask (Scenario.stop_at 6 (lit "41")) Scenario.question Scenario.loaded).1.1
  = Done Stopped /\
  chat_history
    (ask (Scenario.stop_at 6 (lit "41")) Scenario.question Scenario.loaded).1.2 = [].
Proof. vm_compute. split; reflexivity. Qed.

(** A stop request that arrives before the handler starts is lost:
    line 132 clears the flag. *)
Example ask_stop_before_reset :
  (ask (Scenario.stop_at 0 (lit "41")) Scenario.question Scenario.loaded).1.1
  = Done (Answer (lit "41")).
Proof. vm_compute. reflexivity. Qed.

(** An exception of the engine is reported in the answer and nothing
    is stored. *)
Example ask_engine_failure :
  let w := alone (R := Demo.runtime) (fun _ _ _ => Failed (lit "quota exceeded")) in
  (ask w Scenario.question Scenario.loaded).1.1
  = Done (Answer (lit "Error getting response: quota exceeded")) /\
  chat_history (ask w Scenario.question Scenario.loaded).1.2 = [].
Proof. vm_compute. split; reflexivity. Qed.

(** A failing [INSERT] does not keep the answer from the user. *)
Example ask_insert_failure :
  let w := {| concurrent := fun _ s => s;
              get_chat_response := Scenario.says (lit "41");
              insert_raises := true |} in
  (ask w Scenario.question Scenario.loaded).1.1 = Done (Answer (lit "41")) /\
  chat_history (ask w Scenario.question Scenario.loaded).1.2 = [].
Proof. vm_compute. split; reflexivity. Qed.

(** The chart of the specification's example is decoded and drawn, but
    formatting the chart template raises as well, and the answer is
    the raw text. *)
Example chart_of_the_specification :
  let raw :=
    quoted "CHART_DATA: {`labels`:[`A`,`B`],`values`:[1,2],`title`:`T`}" in
  (chart_str raw ≫= json_loads (Runtime := Demo.runtime))
  = Ok (JObject [(lit "labels", JArray [JString (lit "A"); JString (lit "B")]);
                 (lit "values", JArray [JNumber (lit "1"); JNumber (lit "2")]);
                 (lit "title", JString (lit "T"))]) /\
  chart_page (R := Demo.runtime) raw = Raise (KeyError (NL ++ lit "font-family")) /\
  render (R := Demo.runtime) raw = raw.
Proof. vm_compute. repeat split. Qed.

(** Without a stop request the turn is stored. *)
Example ask_stores_turn :
  map history_columns (chat_history
    (ask (alone (Scenario.says (lit "41"))) Scenario.question Scenario.loaded).1.2)
  = [(Some (lit "How old is Ann?"), lit "41")].
Proof. vm_compute. reflexivity. Qed.



(** Witness of C4. *)
Lemma chart_bad_json_falls_back_witness :
  ask_step (alone (Scenario.says (lit "CHART_DATA: not json")))
    (AtRender (lit "CHART_DATA: not json")) Scenario.loaded
  = (Done (Answer (lit "CHART_DATA: not json")), Scenario.loaded, []).
Proof.
  apply (chart_bad_json_falls_back (R := Demo.runtime) _ _ _ (lit "not json")
           (LibraryError (lit "Expecting value")));
    vm_compute; reflexivity.
Defined.

(** ** Paths of the upload folder *)

Section Folder.
Context {R : Runtime}.

Lemma upload_folder_shape : exists dir, UPLOAD_FOLDER = dir ++ lit "uploads".
Proof.
  unfold UPLOAD_FOLDER, path_join. cbn [startswith lit].
  change (startswith (lit "/") (lit "uploads")) with false. cbn iota.
  destruct (negb (truthy BASE_DIR) || endswith (lit "/") BASE_DIR).
  - now exists BASE_DIR.
  - exists (BASE_DIR ++ lit "/"). now rewrite <- app_assoc.
Qed.

Lemma upload_folder_open : endswith (lit "/") UPLOAD_FOLDER = false.
Proof.
  destruct upload_folder_shape as [dir ->].
  unfold endswith. rewrite rev_app_distr. reflexivity.
Qed.

Lemma upload_folder_truthy : truthy UPLOAD_FOLDER = true.
Proof.
  destruct upload_folder_shape as [dir ->]. apply truthy_nonempty.
  destruct dir; discriminate.
Qed.

(** Joining a relative name to the upload folder puts a slash between. *)
Lemma join_upload_folder (name : str) :
  startswith (lit "/") name = false ->
  path_join UPLOAD_FOLDER name = UPLOAD_FOLDER ++ 47 :: name.
Proof.
  intros H. unfold path_join at 1.
  now rewrite H, upload_folder_truthy, upload_folder_open.
Qed.

Lemma static_csv_path :
  STATIC_CSV = UPLOAD_FOLDER ++ 47 :: lit "patient_details2.csv".
Proof. apply (join_upload_folder (lit "patient_details2.csv")). reflexivity. Qed.

Lemma static_csv_basename : basename STATIC_CSV = lit "patient_details2.csv".
Proof.
  rewrite static_csv_path. apply basename_join.
  intros H. apply list_elem_of_In in H. simpl in H. intuition discriminate.
Qed.

(** The copy of the seed has the seed itself as its target. *)
Lemma seed_destination : path_join UPLOAD_FOLDER (basename STATIC_CSV) = STATIC_CSV.
Proof. now rewrite static_csv_basename. Qed.

(** So [shutil.copy] raises whenever the bootstrap reaches it, and the
    bootstrap never changes the state. *)
Lemma bootstrap_dataset_state (s : AppState) : (bootstrap_dataset s).2 = s.
Proof.
  unfold bootstrap_dataset. rewrite seed_destination.
  repeat match goal with
    | |- context [if ?c then _ else _] => destruct c
    end; try reflexivity.
  unfold shutil_copy. now rewrite bool_decide_eq_true_2.
Qed.

Lemma bootstrap_dataset_raises (s : AppState) :
  is_set (get_current_file s) = false ->
  path_exists (files s) STATIC_CSV = true ->
  bootstrap_dataset s = (Raise SameFileError, s).
Proof.
  intros Hcur Hseed. unfold bootstrap_dataset.
  rewrite seed_destination, Hcur, Hseed. cbn.
  unfold shutil_copy. now rewrite bool_decide_eq_true_2.
Qed.

End Folder.

(** ** Uploads *)

Section Uploads.
Context {R : Runtime}.

Lemma allowed_file_truthy (filename : str) :
  allowed_file filename = true -> truthy filename = true.
Proof. destruct filename; [discriminate | reflexivity]. Qed.

Lemma get_current_file_set (filename : str) (s : AppState) :
  get_current_file (set_current_file filename s) = Some filename.
Proof. reflexivity. Qed.

(** [load_data] writes the cache and nothing else. *)
Lemma load_data_frame (s : AppState) :
  chat_history (load_data s) = chat_history s /\
  current_file (load_data s) = current_file s /\
  files (load_data s) = files s /\
  stop_execution_flag (load_data s) = stop_execution_flag s.
Proof.
  unfold load_data.
  repeat match goal with
    | |- context [match ?x with _ => _ end] => destruct x
    end; repeat split.
Qed.

Lemma load_data_cache (s : AppState) (current : str) (content : list Byte.byte)
    (df : DataFrame) :
  get_current_file s = Some current ->
  truthy current = true ->
  files s !! path_join UPLOAD_FOLDER current = Some content ->
  read_csv (path_join UPLOAD_FOLDER current) content = Ok df ->
  data_cache (load_data s) = Some df.
Proof.
  intros Hcur Ht Hfile Hread. unfold load_data.
  now rewrite Hcur, Ht, Hfile, Hread.
Qed.

(** Saving under an empty name would write to the folder itself. *)
Lemma file_save_named (d d' : disk) (filename : str) (content : list Byte.byte) :
  file_save d (path_join UPLOAD_FOLDER filename) content = Ok d' ->
  truthy filename = true /\
  d' = <[path_join UPLOAD_FOLDER filename := content]> d.
Proof.
  unfold file_save. intros H.
  destruct (negb (truthy (path_join UPLOAD_FOLDER filename))); [discriminate |].
  destruct (endswith (lit "/") (path_join UPLOAD_FOLDER filename)) eqn:Hdir;
    [discriminate |].
  split; [|congruence].
  destruct filename; [|reflexivity]. exfalso.
  rewrite join_upload_folder in Hdir by reflexivity.
  change (UPLOAD_FOLDER ++ [47]) with (UPLOAD_FOLDER ++ lit "/") in Hdir.
  rewrite endswith_app in Hdir. discriminate.
Qed.

(** What an accepted upload that completes leaves behind. *)
Lemma upload_file_accepted (file : FileStorage) (s : AppState) :
  allowed_file (upload_filename file) = true ->
  (upload_file (Some file) s).1 = Redirect ->
  let filename := secure_filename (upload_filename file) in
  let save_path := path_join UPLOAD_FOLDER filename in
  truthy filename = true /\
  (upload_file (Some file) s).2
  = set_history []
      (load_data (set_current_file filename
         (set_files (<[save_path := upload_content file]> (files s)) s))).
Proof.
  intros Hallowed. unfold upload_file.
  rewrite Hallowed, (allowed_file_truthy _ Hallowed). cbn [andb].
  destruct (file_save _ _ _) as [d|e] eqn:Hsave; [|discriminate].
  intros _. apply file_save_named in Hsave as [Hname ->]. now split.
Qed.

(** C5 (amended): after an upload with an allowed name whose contents
    [read_csv] parses, once the request has completed,
    [get_current_file()] is [secure_filename] of the uploaded name (the
    uploaded name itself when sanitising leaves it as it is), the file
    is stored under that name, and the cache holds the table parsed
    from the uploaded contents. *)
Theorem upload_sets_pointer_and_cache (file : FileStorage) (s : AppState)
    (df : DataFrame) :
  let filename := secure_filename (upload_filename file) in
  let save_path := path_join UPLOAD_FOLDER filename in
  allowed_file (upload_filename file) = true ->
  read_csv save_path (upload_content file) = Ok df ->
  (upload_file (Some file) s).1 = Redirect ->
  get_current_file (upload_file (Some file) s).2 = Some filename /\
  files (upload_file (Some file) s).2 !! save_path = Some (upload_content file) /\
  data_cache (upload_file (Some file) s).2 = Some df.
Proof.
  intros filename save_path Hallowed Hread Hdone.
  destruct (upload_file_accepted file s Hallowed Hdone) as [Hname ->].
  fold filename save_path.
  set (s1 := set_current_file filename _).
  destruct (load_data_frame s1) as (_ & Hptr & Hfiles & _).
  repeat split.
  - unfold get_current_file. cbn [set_history current_file]. now rewrite Hptr.
  - cbn [set_history files]. rewrite Hfiles. apply lookup_insert_eq.
  - cbn [set_history data_cache].
    apply (load_data_cache s1 filename (upload_content file)); try assumption.
    + reflexivity.
    + apply lookup_insert_eq.
Qed.

(** C6: whatever the conversation log held before, an upload of an
    allowed file that completes leaves [chat_history] empty. *)
Theorem upload_empties_history (file : FileStorage) (s : AppState) :
  allowed_file (upload_filename file) = true ->
  (upload_file (Some file) s).1 = Redirect ->
  chat_history (upload_file (Some file) s).2 = [].
Proof.
  intros Hallowed Hdone.
  destruct (upload_file_accepted file s Hallowed Hdone) as [_ ->].
  reflexivity.
Qed.

(** C10: an upload without a file field, or with a file name that has
    no dot, or whose extension (the text after the last dot, in lower
    case) is neither [csv] nor [db], changes nothing (pointer, cache,
    log and stored files stay as they are) and is answered with the
    redirect to the index page. *)
Theorem upload_rejected_is_noop (form : option FileStorage) (s : AppState) :
  (forall file, form = Some file ->
     contains (lit ".") (upload_filename file) = false \/
     exists ext, rsplit1 46 (upload_filename file) !! 1%nat = Some ext /\
                 lower ext ∉ ALLOWED_EXTENSIONS) ->
  upload_file form s = (Redirect, s).
Proof.
  intros H. destruct form as [file|]; [|reflexivity].
  unfold upload_file.
  assert (Hno : allowed_file (upload_filename file) = false).
  { unfold allowed_file. destruct (H file eq_refl) as [-> | (ext & -> & Hext)].
    - reflexivity.
    - rewrite bool_decide_eq_false_2 by assumption. apply andb_false_r. }
  now rewrite Hno, andb_false_r.
Qed.

End Uploads.

(** ** The conversation log *)

Lemma insert_by_id_front (r : chat_row) (t : list chat_row) :
  Forall (fun x => (chat_id r < chat_id x)%Z) t -> insert_by_id r t = r :: t.
Proof.
  destruct t as [|x t]; [reflexivity |]. intros H.
  apply Forall_cons_1 in H as [Hx _]. simpl.
  destruct (Z.leb_spec (chat_id r) (chat_id x)); [reflexivity | lia].
Qed.

(** Sorting by id leaves such a table as it is. *)
Lemma order_by_id_ascending (t : list chat_row) :
  ids_ascending t -> order_by_id t = t.
Proof.
  induction 1 as [|r t Hs IH Hr]; [reflexivity |].
  cbn [order_by_id fold_right]. fold (order_by_id t).
  rewrite IH. now apply insert_by_id_front.
Qed.

Lemma next_rowid_above (ids : list Z) : Forall (fun i => (i < next_rowid ids)%Z) ids.
Proof.
  destruct ids as [|i rest]; [constructor |]. unfold next_rowid.
  assert (H : forall j, Forall (fun x => (x <= fold_right Z.max j rest)%Z) rest /\
                        (j <= fold_right Z.max j rest)%Z).
  { induction rest as [|y rest IH]; intros j; simpl.
    - split; [constructor | lia].
    - destruct (IH j) as [Hall Hj]. split; [|lia].
      constructor; [lia |].
      eapply Forall_impl; [exact Hall |]. cbn. intros; lia. }
  destruct (H i) as [Hall Hi]. constructor; [lia |].
  eapply Forall_impl; [exact Hall |]. cbn. intros; lia.
Qed.

Lemma ids_ascending_snoc (t : list chat_row) (r : chat_row) :
  ids_ascending t ->
  Forall (fun x => (chat_id x < chat_id r)%Z) t ->
  ids_ascending (t ++ [r]).
Proof.
  unfold ids_ascending. induction 1 as [|x t Hs IH Hx]; intros Hr; simpl.
  - repeat constructor.
  - apply Forall_cons_1 in Hr as [Hxr Hr]. constructor; [now apply IH |].
    apply Forall_app. split; [exact Hx | now constructor].
Qed.

Lemma insert_chat_ascending (t : list chat_row) (m : option str) (r : str) :
  ids_ascending t -> ids_ascending (insert_chat t m r).
Proof.
  intros H. apply ids_ascending_snoc; [exact H |]. cbn [chat_id].
  pose proof (next_rowid_above (map chat_id t)) as Habove.
  rewrite Forall_map in Habove. exact Habove.
Qed.

Section Log.
Context {R : Runtime}.

Lemma startup_history (s : AppState) : chat_history (startup s) = chat_history s.
Proof.
  unfold startup. pose proof (bootstrap_dataset_state s) as Hb.
  destruct (bootstrap_dataset s) as [[u|e] s1]; cbn [snd] in Hb; subst s1;
    [apply load_data_frame | reflexivity].
Qed.

Lemma upload_file_history (form : option FileStorage) (s : AppState) :
  chat_history (upload_file form s).2 = chat_history s \/
  chat_history (upload_file form s).2 = [].
Proof.
  unfold upload_file. destruct form as [file|]; [|now left].
  destruct (truthy _ && allowed_file _); [|now left].
  destruct (file_save _ _ _); [now right | now left].
Qed.

Lemma delete_file_history (s : AppState) :
  chat_history (delete_file s) = chat_history s \/ chat_history (delete_file s) = [].
Proof.
  unfold delete_file. destruct (get_current_file s) as [c|]; [|now left].
  destruct (truthy c); [now right | now left].
Qed.

Lemma ask_step_ascending (w : world) (pc : ask_pc) (s : AppState) :
  ids_ascending (chat_history s) ->
  ids_ascending (chat_history (ask_step w pc s).1.2).
Proof.
  intros H. destruct pc as [b|b| | | | | | | |]; cbn [ask_step];
    repeat match goal with
      | |- context [match ?x with _ => _ end] => destruct x
      end; try exact H.
  cbn. now apply insert_chat_ascending.
Qed.

(** In every state the server can reach the rowids of the log grow
    along the order of insertion. *)
Lemma reachable_ascending (s : AppState) :
  reachable s -> ids_ascending (chat_history s).
Proof.
  induction 1 as [d|s _ IH|s _ IH|s form _ IH|s _ IH|s _ IH|s w pc _ IH].
  - rewrite startup_history. constructor.
  - unfold restart. now rewrite startup_history.
  - exact IH.
  - destruct (upload_file_history form s) as [-> | ->]; [exact IH | constructor].
  - destruct (delete_file_history s) as [-> | ->]; [exact IH | constructor].
  - constructor.
  - now apply ask_step_ascending.
Qed.

(** C7: in every state the server can reach, the read of the log for
    the page ([index]) and the read of the session history in [/ask]
    both return the entries in the order of their insertion. *)
Theorem history_reads_in_insertion_order (s : AppState) :
  reachable s ->
  (index s).1 = map history_columns (chat_history s) /\
  forall (w : world) (user_input : option str) (df : DataFrame),
    (ask_step w (AtHistory user_input df) s).1.1
    = AtCheck1 user_input df (map history_columns (chat_history s)).
Proof.
  intros Hs. apply reachable_ascending in Hs.
  assert (Hscan : table_scan (chat_history s) = chat_history s)
    by now apply order_by_id_ascending.
  split.
  - cbn. unfold select_history. now rewrite Hscan.
  - intros w user_input df. cbn. unfold select_history_by_id.
    rewrite Hscan. now rewrite order_by_id_ascending.
Qed.

End Log.

(** The sort is a real one: rows stored out of order come back by id. *)
Example order_by_id_sorts :
  map chat_id (order_by_id
    [ {| chat_id := 3; row_message := None; row_response := lit "c" |};
      {| chat_id := 1; row_message := None; row_response := lit "a" |};
      {| chat_id := 2; row_message := None; row_response := lit "b" |} ])
  = [1; 2; 3]%Z.
Proof. reflexivity. Qed.

(** Witness of C5 (amended) *)
Lemma upload_sets_pointer_and_cache_witness :
  get_current_file Scenario.loaded = Some (lit "patients.csv") /\
  files Scenario.loaded !! lit "/app/uploads/patients.csv" = Some Scenario.patients_csv /\
  data_cache Scenario.loaded
  = Some [[lit "name"; lit "age"]; [lit "Ann"; lit "41"]].
Proof.
  apply (upload_sets_pointer_and_cache (R := Demo.runtime)
           {| upload_filename := lit "patients.csv";
              upload_content := Scenario.patients_csv |} Scenario.no_data);
    vm_compute; reflexivity.
Defined.

(** Counterexample to C5 as stated: the name under which the file is
    stored and which becomes current is the sanitised one. *)
Lemma upload_renames_file :
  let file := {| upload_filename := lit "my data.csv";
                 upload_content := Scenario.patients_csv |} in
  allowed_file (R := Demo.runtime) (upload_filename file) = true /\
  (upload_file (Some file) Scenario.no_data).1 = Redirect /\
  data_cache (upload_file (Some file) Scenario.no_data).2
  = Some [[lit "name"; lit "age"]; [lit "Ann"; lit "41"]] /\
  get_current_file (upload_file (Some file) Scenario.no_data).2
  = Some (lit "my_data.csv") /\
  get_current_file (upload_file (Some file) Scenario.no_data).2
  <> Some (upload_filename file).
Proof. vm_compute. repeat split. discriminate. Qed.

(** Witness of C6: a log with one turn is empty after the next upload. *)
Lemma upload_empties_history_witness :
  let file := {| upload_filename := lit "patients.csv";
                 upload_content := Scenario.patients_csv |} in
  let talked :=
    (ask (alone (Scenario.says (lit "41"))) Scenario.question Scenario.loaded).1.2 in
  length (chat_history talked) = 1%nat /\
  chat_history (upload_file (Some file) talked).2 = [].
Proof.
  split; [vm_compute; reflexivity |].
  apply (upload_empties_history (R := Demo.runtime)); vm_compute; reflexivity.
Defined.

(** Witness of C10 *)
Lemma upload_rejected_is_noop_witness :
  upload_file
    (Some {| upload_filename := lit "notes.txt";
             upload_content := Scenario.patients_csv |}) Scenario.loaded
  = (Redirect, Scenario.loaded).
Proof.
  apply (upload_rejected_is_noop (R := Demo.runtime)).
  intros file [= <-]. right. exists (lit "txt"). split; [reflexivity |].
  intros H. apply list_elem_of_In in H. vm_compute in H. intuition discriminate.
Defined.

(** The comparison of the extension ignores case. *)
Example upload_upper_case_extension :
  allowed_file (R := Demo.runtime) (lit "PATIENTS.CSV") = true.
Proof. reflexivity. Qed.

(** Witness of C7 *)
Lemma history_reads_in_insertion_order_witness :
  let talked :=
    (ask_step (alone (Scenario.says (lit "41")))
       (AtPersist (Some (lit "How old is Ann?")) (lit "41")) Scenario.loaded).1.2 in
  (index talked).1 = map history_columns (chat_history talked).
Proof.
  apply (history_reads_in_insertion_order (R := Demo.runtime)).
  apply reach_ask. apply reach_upload. apply reach_start.
Defined.

(** C8 (the code departs from the claim): with no pointer in the
    database and the seed file in the upload folder, the bootstrap
    raises [SameFileError] at the copy and the pointer stays absent;
    the start of the server then skips [load_data]. *)
Theorem bootstrap_seed_is_not_installed :
  let seed := STATIC_CSV (R := Demo.runtime) in
  let d : gmap (list N) (list Byte.byte) := {[ seed := Scenario.patients_csv ]} in
  let s := empty_database (R := Demo.runtime) d in
  seed = lit "/app/uploads/patient_details2.csv" /\
  get_current_file s = None /\
  path_exists (files s) seed = true /\
  (bootstrap_dataset s).1 = Raise SameFileError /\
  get_current_file (bootstrap_dataset s).2 = None /\
  get_current_file (startup s) = None /\
  data_cache (startup s) = None.
Proof. vm_compute. repeat split. Qed.

(** * Further properties of the code *)

(** ** [clean_html] *)

Lemma lstrip_split (s : str) :
  exists w, s = w ++ lstrip s /\ Forall (fun c => isspace c = true) w.
Proof.
  induction s as [|c s (w & Hs & Hw)]; [by exists []|].
  simpl. destruct (isspace c) eqn:Hc.
  - exists (c :: w). split; [simpl; congruence | now constructor].
  - by exists [].
Qed.

Lemma lstrip_head (s : str) (c : N) (t : str) :
  lstrip s = c :: t -> isspace c = false.
Proof.
  induction s as [|x s IH]; [discriminate|]. simpl.
  destruct (isspace x) eqn:Hx; [exact IH | congruence].
Qed.

Lemma lstrip_fixed (c : N) (t : str) :
  isspace c = false -> lstrip (c :: t) = c :: t.
Proof. intros H. simpl. now rewrite H. Qed.

(** A line is clean when no white space stands at either end. *)
Lemma strip_clean (s : str) :
  lstrip (strip s) = strip s /\ lstrip (rev (strip s)) = rev (strip s).
Proof.
  unfold strip, rstrip. rewrite rev_involutive.
  set (a := lstrip s). set (b := lstrip (rev a)). split.
  - destruct (lstrip_split (rev a)) as (w & Ha & _). fold b in Ha.
    apply (f_equal (@rev N)) in Ha. rewrite rev_involutive, rev_app_distr in Ha.
    destruct (rev b) as [|c t] eqn:Hb; [reflexivity|].
    apply lstrip_fixed. apply (lstrip_head s c (t ++ rev w)).
    fold a. now rewrite Ha.
  - destruct b as [|c t] eqn:Hb; [reflexivity|].
    apply lstrip_fixed. now apply (lstrip_head (rev a) c t).
Qed.

Lemma strip_fixed (s : str) :
  lstrip s = s -> lstrip (rev s) = rev s -> strip s = s.
Proof.
  intros H1 H2. unfold strip, rstrip. now rewrite H1, H2, rev_involutive.
Qed.

Lemma strip_idempotent (s : str) : strip (strip s) = strip s.
Proof. destruct (strip_clean s). now apply strip_fixed. Qed.

Lemma elem_of_rev (x : N) (s : str) : x ∈ rev s <-> x ∈ s.
Proof. rewrite !list_elem_of_In. symmetry. apply in_rev. Qed.

Lemma lstrip_subset (s : str) (x : N) : x ∈ lstrip s -> x ∈ s.
Proof.
  destruct (lstrip_split s) as (w & Hs & _). intros H.
  rewrite Hs. apply elem_of_app. now right.
Qed.

Lemma strip_subset (s : str) (x : N) : x ∈ strip s -> x ∈ s.
Proof.
  unfold strip, rstrip. intros H. rewrite elem_of_rev in H.
  apply lstrip_subset in H. rewrite elem_of_rev in H. now apply lstrip_subset.
Qed.

(** The parts of a split at one code point do not contain it. *)
Lemma split_go_parts (c : N) (s : str) :
  forall cur, c ∉ cur -> Forall (fun part => c ∉ part) (split_go [c] 0 cur s).
Proof.
  induction s as [|x s IH]; intros cur Hcur; cbn [split_go].
  - constructor; [|constructor]. now rewrite elem_of_rev.
  - cbn [startswith]. destruct (N.eqb_spec c x) as [<-|Hne]; cbn [andb].
    + constructor; [now rewrite elem_of_rev|].
      apply IH. apply not_elem_of_nil.
    + apply IH. rewrite elem_of_cons. intros [->|]; tauto.
Qed.

Lemma str_join_cons (sep a b : str) (l : list (str)) :
  str_join sep (a :: b :: l) = a ++ sep ++ str_join sep (b :: l).
Proof. reflexivity. Qed.

(** Splitting what was joined gives the parts back. *)
Lemma split_go_join (c : N) (parts : list (str)) :
  Forall (fun part => c ∉ part) parts ->
  forall part cur, c ∉ part ->
  split_go [c] 0 cur (str_join [c] (part :: parts)) = (rev cur ++ part) :: parts.
Proof.
  induction 1 as [|p ps Hp Hps IH]; intros part.
  - induction part as [|x part IHp]; intros cur Hpart.
    + cbn. now rewrite app_nil_r.
    + change (str_join [c] [x :: part]) with (x :: str_join [c] [part]).
      cbn [split_go startswith].
      destruct (N.eqb_spec c x) as [->|Hne];
        [exfalso; apply Hpart; now left|]. cbn [andb].
      rewrite IHp by (intros ?; apply Hpart; now right).
      cbn [rev]. now rewrite <- app_assoc.
  - induction part as [|x part IHp]; intros cur Hpart.
    + rewrite str_join_cons. cbn [app split_go startswith].
      rewrite N.eqb_refl. cbn [andb length Nat.sub].
      rewrite (IH p []) by assumption. now rewrite app_nil_r.
    + rewrite str_join_cons.
      change ((x :: part) ++ [c] ++ str_join [c] (p :: ps))
        with (x :: (part ++ [c] ++ str_join [c] (p :: ps))).
      rewrite <- str_join_cons.
      cbn [split_go startswith].
      destruct (N.eqb_spec c x) as [->|Hne];
        [exfalso; apply Hpart; now left|]. cbn [andb].
      rewrite IHp by (intros ?; apply Hpart; now right).
      cbn [rev]. now rewrite <- app_assoc.
Qed.

Lemma str_split_join (c : N) (parts : list (str)) :
  parts <> [] -> Forall (fun part => c ∉ part) parts ->
  str_split [c] (str_join [c] parts) = parts.
Proof.
  intros Hne Hall. destruct parts as [|part parts]; [congruence|].
  apply Forall_cons_1 in Hall as [Hpart Hall].
  unfold str_split. now rewrite split_go_join.
Qed.

(** The lines [clean_html] keeps. *)
Lemma clean_lines (html_content : str) :
  Forall (fun line => (10 ∉ line) /\ truthy line = true /\ strip line = line)
    (filter (fun line => truthy line = true) (map strip (str_split NL html_content))).
Proof.
  apply Forall_forall. intros line Hin.
  apply list_elem_of_filter in Hin as [Ht Hin].
  apply list_elem_of_fmap in Hin as (raw & -> & Hraw).
  repeat split; [|exact Ht|apply strip_idempotent].
  intros H10. apply strip_subset in H10.
  pose proof (split_go_parts 10 html_content [] (not_elem_of_nil _)) as Hparts.
  rewrite Forall_forall in Hparts. exact (Hparts raw Hraw H10).
Qed.

Lemma clean_html_of_clean_lines (lines : list (str)) :
  Forall (fun line => (10 ∉ line) /\ truthy line = true /\ strip line = line) lines ->
  clean_html (str_join NL lines) = str_join NL lines.
Proof.
  intros Hall. destruct lines as [|l ls]; [reflexivity|].
  unfold clean_html, NL.
  rewrite str_split_join; [|discriminate|eapply Forall_impl; [exact Hall|]; cbn; tauto].
  f_equal.
  induction Hall as [|x xs (_ & Ht & Hs) _ IH]; [reflexivity|].
  cbn [map]. rewrite Hs, filter_cons_True by exact Ht. now rewrite IH.
Qed.

(** X1: [clean_html] is idempotent: cleaning a cleaned document gives
    the same document. *)
Theorem clean_html_idempotent (html_content : str) :
  clean_html (clean_html html_content) = clean_html html_content.
Proof. apply clean_html_of_clean_lines, clean_lines. Qed.

(** X2: the result of [clean_html] is empty, or each of its lines is
    non-empty and has no white space at either end. *)
Theorem clean_html_lines_are_clean (html_content : str) :
  clean_html html_content = [] \/
  Forall (fun line => line <> [] /\ strip line = line)
    (str_split NL (clean_html html_content)).
Proof.
  pose proof (clean_lines html_content) as Hall.
  unfold clean_html.
  destruct (filter _ _) as [|l ls] eqn:Hf; [now left|right].
  unfold NL. rewrite str_split_join;
    [|discriminate|eapply Forall_impl; [exact Hall|]; cbn; tauto].
  eapply Forall_impl; [exact Hall|]. cbn. intros line (_ & Ht & Hs).
  split; [now apply truthy_nonempty | exact Hs].
Qed.

(** Every code point of a part comes from the text (or from what was
    already collected), and every code point of the text other than
    the separator lands in a part. *)
Lemma split_go_elems (c : N) (s : str) :
  forall cur part x,
  part ∈ split_go [c] 0 cur s -> x ∈ part -> (x ∈ cur) \/ (x ∈ s).
Proof.
  induction s as [|y s IH]; intros cur part x Hpart Hx; cbn [split_go] in Hpart.
  - apply list_elem_of_singleton in Hpart as ->. left. now apply elem_of_rev.
  - cbn [startswith] in Hpart. destruct (N.eqb_spec c y) as [<-|Hne]; cbn [andb] in Hpart.
    + cbn [length Nat.sub] in Hpart. apply elem_of_cons in Hpart as [-> | Hpart].
      * left. now apply elem_of_rev.
      * destruct (IH [] part x Hpart Hx) as [H|H]; [now apply elem_of_nil in H|].
        right. now right.
    + destruct (IH (y :: cur) part x Hpart Hx) as [H|H].
      * apply elem_of_cons in H as [->|H]; [right; now left | now left].
      * right. now right.
Qed.

Lemma split_go_covers (c : N) (s : str) :
  forall cur x, x <> c -> (x ∈ cur) \/ (x ∈ s) ->
  exists part, (part ∈ split_go [c] 0 cur s) /\ (x ∈ part).
Proof.
  induction s as [|y s IH]; intros cur x Hx Hin; cbn [split_go].
  - destruct Hin as [Hin|Hin]; [|now apply elem_of_nil in Hin].
    exists (rev cur). split; [now left | now apply elem_of_rev].
  - cbn [startswith]. destruct (N.eqb_spec c y) as [<-|Hne]; cbn [andb].
    + cbn [length Nat.sub]. destruct Hin as [Hin|Hin].
      * exists (rev cur). split; [now left | now apply elem_of_rev].
      * apply elem_of_cons in Hin as [->|Hin]; [congruence|].
        destruct (IH [] x Hx (or_intror Hin)) as (part & Hp & Hxp).
        exists part. split; [now right | exact Hxp].
    + apply IH; [exact Hx|]. destruct Hin as [Hin|Hin].
      * left. now right.
      * apply elem_of_cons in Hin as [->|Hin]; [left; now left | now right].
Qed.

Lemma lstrip_spaces (s : str) :
  Forall (fun c => isspace c = true) s -> lstrip s = [].
Proof. induction 1 as [|c s Hc _ IH]; [reflexivity|]. simpl. now rewrite Hc. Qed.

Lemma lstrip_keeps (s : str) (x : N) :
  isspace x = false -> x ∈ s -> x ∈ lstrip s.
Proof.
  intros Hx Hin. destruct (lstrip_split s) as (w & Hs & Hw).
  rewrite Hs in Hin. apply elem_of_app in Hin as [Hin|Hin]; [|exact Hin].
  rewrite Forall_forall in Hw. specialize (Hw x Hin). congruence.
Qed.

Lemma strip_keeps (s : str) (x : N) :
  isspace x = false -> x ∈ s -> x ∈ strip s.
Proof.
  intros Hx Hin. unfold strip, rstrip.
  apply elem_of_rev, lstrip_keeps, elem_of_rev, lstrip_keeps; assumption.
Qed.

Lemma str_join_nonempty (sep l : str) (ls : list (str)) :
  l <> [] -> str_join sep (l :: ls) <> [].
Proof. destruct l; [congruence|]. destruct ls; discriminate. Qed.

(** X3: [clean_html] returns the empty string exactly when its input
    consists of white space only (the empty input included). *)
Theorem clean_html_empty_iff (html_content : str) :
  clean_html html_content = [] <->
  Forall (fun c => isspace c = true) html_content.
Proof.
  unfold clean_html. split.
  - intros Hempty. apply Forall_forall. intros x Hx.
    destruct (isspace x) eqn:Hsp; [reflexivity|exfalso].
    assert (Hnl : x <> 10) by (intros ->; discriminate).
    destruct (split_go_covers 10 html_content [] x Hnl (or_intror Hx))
      as (part & Hpart & Hxp).
    assert (Hin : strip part ∈
      filter (fun line => truthy line = true) (map strip (str_split NL html_content))).
    { apply list_elem_of_filter. split.
      - apply truthy_nonempty. intros Hnil.
        pose proof (strip_keeps part x Hsp Hxp) as H.
        rewrite Hnil in H. now apply elem_of_nil in H.
      - apply list_elem_of_fmap. now exists part. }
    destruct (filter _ _) as [|l ls] eqn:Hf; [now apply elem_of_nil in Hin|].
    pose proof (clean_lines html_content) as Hall. rewrite Hf in Hall.
    apply Forall_cons_1 in Hall as [(_ & Hl & _) _].
    apply truthy_nonempty in Hl. exact (str_join_nonempty NL l ls Hl Hempty).
  - intros Hall.
    assert (Hparts : Forall (fun part => strip part = [])
                       (str_split NL html_content)).
    { apply Forall_forall. intros part Hpart. unfold strip.
      rewrite lstrip_spaces; [reflexivity|].
      apply Forall_forall. intros x Hx.
      destruct (split_go_elems 10 html_content [] part x Hpart Hx) as [H|H];
        [now apply elem_of_nil in H|].
      rewrite Forall_forall in Hall. now apply Hall. }
    induction Hparts as [|part parts Hp _ IH]; [reflexivity|].
    cbn [map]. rewrite Hp, filter_cons_False by discriminate. exact IH.
Qed.

(** ** [allowed_file] *)

Lemma contains_char (c : N) (a b : str) : contains [c] (a ++ c :: b) = true.
Proof.
  induction a as [|x a IH]; cbn [app contains startswith].
  - now rewrite N.eqb_refl.
  - rewrite IH. apply orb_true_r.
Qed.

Lemma last_occurrence (c : N) (s : str) :
  c ∈ s -> exists a b, s = a ++ c :: b /\ (c ∉ b).
Proof.
  induction s as [|x s IH]; intros Hin; [now apply elem_of_nil in Hin|].
  destruct (decide (c ∈ s)) as [Hs|Hs].
  - destruct (IH Hs) as (a & b & -> & Hb). now exists (x :: a), b.
  - apply elem_of_cons in Hin as [->|Hin]; [|contradiction].
    now exists [], s.
Qed.

Lemma rsplit1_second (c : N) (s ext : str) :
  rsplit1 c s !! 1%nat = Some ext <->
  exists stem, s = stem ++ c :: ext /\ (c ∉ ext).
Proof.
  split.
  - intros H. destruct (decide (c ∈ s)) as [Hs|Hs].
    + destruct (last_occurrence c s Hs) as (a & b & -> & Hb).
      rewrite rsplit1_last in H by assumption. injection H as <-. now exists a.
    + rewrite rsplit1_absent in H by assumption. discriminate.
  - intros (stem & -> & Hext). now rewrite rsplit1_last.
Qed.

Section AllowedFile.
Context {R : Runtime}.

(** X4: [allowed_file] accepts a name exactly when it has a dot and
    the text after its last dot is, in lower case, [csv] or [db]; the
    part before the dot may be anything, also empty. *)
Theorem allowed_file_iff (filename : str) :
  allowed_file filename = true <->
  exists stem ext, filename = stem ++ 46 :: ext /\ (46 ∉ ext) /\
                   lower ext ∈ ALLOWED_EXTENSIONS.
Proof.
  unfold allowed_file. split.
  - intros H. apply andb_prop in H as [_ H].
    destruct (rsplit1 46 filename !! 1%nat) as [ext|] eqn:Hext; [|discriminate].
    apply rsplit1_second in Hext as (stem & -> & Hdot).
    apply bool_decide_eq_true in H. now exists stem, ext.
  - intros (stem & ext & -> & Hdot & Hext).
    change (lit ".") with [46]. rewrite contains_char.
    rewrite rsplit1_last by assumption. cbn.
    now apply bool_decide_eq_true.
Qed.

End AllowedFile.

(** ** More on [/ask] *)

Section More.
Context {R : Runtime}.

(** One step of a request whose turn it is, when no other thread runs. *)
Lemma ask_exec_step (w : world) (k fuel : nat) (pc : ask_pc) (s : AppState) :
  finished pc = false ->
  ask_exec w k (S fuel) pc s
  = let '(pc1, s1, e) := ask_step w pc (concurrent w k s) in
    let '(pc2, s2, es) := ask_exec w (S k) fuel pc1 s1 in
    (pc2, s2, e ++ es).
Proof. intros H. cbn [ask_exec]. now rewrite H. Qed.





(** X11: a cancel flag left over from before the request does not
    stop it: line 132 clears the flag, so the request runs as if the
    flag had been clear. *)
Theorem ask_ignores_stale_flag (w : world) (body : ask_body) (s : AppState) (b : bool) :
  (forall x, concurrent w 0 x = x) ->
  ask w body (set_flag b s) = ask w body (set_flag false s).
Proof.
  intros Henv. unfold ask, ask_steps.
  rewrite !ask_exec_step by reflexivity. rewrite !Henv. reflexivity.
Qed.

(** A property of the shared state that neither the other threads nor
    a step of the request destroys holds when the request ends. *)
Lemma ask_exec_invariant (P : AppState -> Prop) (w : world) (fuel : nat) :
  (forall k x, P x -> P (concurrent w k x)) ->
  (forall pc x, P x -> P (ask_step w pc x).1.2) ->
  forall k pc s, P s -> P (ask_exec w k fuel pc s).1.2.
Proof.
  intros Henv Hstep. induction fuel as [|fuel IH]; intros k pc s Hs; [exact Hs|].
  cbn [ask_exec]. destruct (finished pc); [exact Hs|].
  specialize (Hstep pc _ (Henv k s Hs)).
  destruct (ask_step w pc (concurrent w k s)) as [[pc1 s1] e].
  specialize (IH (S k) pc1 s1 Hstep).
  destruct (ask_exec w (S k) fuel pc1 s1) as [[pc2 s2] es]. exact IH.
Qed.

Lemma ask_step_dataset (w : world) (pc : ask_pc) (s : AppState) :
  data_cache (ask_step w pc s).1.2 = data_cache s /\
  current_file (ask_step w pc s).1.2 = current_file s /\
  files (ask_step w pc s).1.2 = files s.
Proof.
  destruct pc as [b|b| | | | | | | |]; cbn [ask_step];
    repeat match goal with
      | |- context [match ?x with _ => _ end] => destruct x eqn:?
      end; repeat split; cbn; congruence.
Qed.

(** X12: [/ask] never changes the dataset: when the other threads
    leave the cache, the pointer table and the stored files alone, the
    request ends with all three as it found them. *)
Theorem ask_keeps_dataset (w : world) (body : ask_body) (s : AppState) :
  (forall k x, data_cache (concurrent w k x) = data_cache x /\
               current_file (concurrent w k x) = current_file x /\
               files (concurrent w k x) = files x) ->
  data_cache (ask w body s).1.2 = data_cache s /\
  current_file (ask w body s).1.2 = current_file s /\
  files (ask w body s).1.2 = files s.
Proof.
  intros Henv.
  apply (ask_exec_invariant
           (fun x => data_cache x = data_cache s /\
                     current_file x = current_file s /\ files x = files s)).
  - intros k x (H1 & H2 & H3). destruct (Henv k x) as (E1 & E2 & E3).
    now rewrite E1, E2, E3.
  - intros pc x (H1 & H2 & H3). destruct (ask_step_dataset w pc x) as (E1 & E2 & E3).
    now rewrite E1, E2, E3.
  - repeat split.
Qed.

(** The engine is called at rank 4 and the log is written at rank 2,
    and the rank falls with every step. *)
Lemma ask_exec_effects (w : world) (fuel : nat) :
  forall k pc s,
  (length (List.filter is_engine_call (ask_exec w k fuel pc s).2)
   <= if (4 <=? rank pc)%nat then 1 else 0)%nat /\
  (length (List.filter is_insert (ask_exec w k fuel pc s).2)
   <= if (2 <=? rank pc)%nat then 1 else 0)%nat.
Proof.
  induction fuel as [|fuel IH]; intros k pc s.
  - cbn [ask_exec snd List.filter length]. split; lia.
  - cbn [ask_exec]. destruct (finished pc) eqn:Hf.
    { cbn [snd List.filter length]. split; lia. }
    pose proof (ask_step_rank w pc (concurrent w k s) Hf) as Hrank.
    assert (He : (length (List.filter is_engine_call (ask_step w pc (concurrent w k s)).2)
                  <= if (rank pc =? 4)%nat then 1 else 0)%nat /\
                 (length (List.filter is_insert (ask_step w pc (concurrent w k s)).2)
                  <= if (rank pc =? 2)%nat then 1 else 0)%nat).
    { destruct pc as [b|b| | | | | | | |]; cbn [ask_step rank Nat.eqb];
        repeat match goal with
          | |- context [match ?x with _ => _ end] => destruct x
          end; cbn; lia. }
    destruct (ask_step w pc (concurrent w k s)) as [[pc1 s1] e].
    destruct (IH (S k) pc1 s1) as [IHe IHi].
    destruct (ask_exec w (S k) fuel pc1 s1) as [[pc2 s2] es].
    cbn [fst snd] in *. rewrite !List.filter_app, !length_app.
    destruct He as [He Hi].
    split.
    + destruct (Nat.eqb_spec (rank pc) 4) as [E|E];
        destruct (Nat.leb_spec 4 (rank pc)); destruct (Nat.leb_spec 4 (rank pc1)); lia.
    + destruct (Nat.eqb_spec (rank pc) 2) as [E|E];
        destruct (Nat.leb_spec 2 (rank pc)); destruct (Nat.leb_spec 2 (rank pc1)); lia.
Qed.

(** X17: whatever the other threads do, one [/ask] request calls the
    engine at most once and inserts at most one row into the log. *)
Theorem ask_calls_and_stores_once (w : world) (body : ask_body) (s : AppState) :
  (length (List.filter is_engine_call (ask w body s).2) <= 1)%nat /\
  (length (List.filter is_insert (ask w body s).2) <= 1)%nat.
Proof. exact (ask_exec_effects w ask_steps 0 (AtReset body) s). Qed.

Lemma ask_step_stopped (w : world) (pc : ask_pc) (s : AppState) :
  (ask_step w pc s).1.1 = Done Stopped -> pc <> Done Stopped ->
  is_checkpoint pc && stop_execution_flag s = true.
Proof.
  destruct pc as [b|b| | | | | | | |r]; cbn [ask_step];
    repeat match goal with
      | |- context [match ?x with _ => _ end] => destruct x eqn:?
      end; cbn; try discriminate; try reflexivity; try congruence.
Qed.

Lemma stopped_exec (w : world) (fuel : nat) :
  forall k pc s,
  pc <> Done Stopped ->
  (ask_exec w k fuel pc s).1.1 = Done Stopped ->
  existsb (fun c : ask_pc * AppState => is_checkpoint c.1 && stop_execution_flag c.2)
    (ask_seen w k fuel pc s) = true.
Proof.
  induction fuel as [|fuel IH]; intros k pc s Hpc H; [contradiction|].
  cbn [ask_exec ask_seen] in *. destruct (finished pc); [contradiction|].
  pose proof (ask_step_stopped w pc (concurrent w k s)) as Hstep.
  destruct (ask_step w pc (concurrent w k s)) as [[pc1 s1] e].
  specialize (IH (S k) pc1 s1).
  destruct (ask_exec w (S k) fuel pc1 s1) as [[pc2 s2] es].
  cbn [fst snd existsb] in *. apply orb_true_iff.
  destruct pc1 as [| | | | | | | | |[|]];
    try (right; apply IH; [discriminate | assumption]).
  left. now apply Hstep.
Qed.

(** X10: [/ask] answers [{status: "stopped"}] only when one of its
    two checkpoints found the cancel flag set. *)
Theorem ask_stopped_only_when_cancelled (w : world) (body : ask_body) (s : AppState) :
  (ask w body s).1.1 = Done Stopped -> cancelled w body s = true.
Proof. apply stopped_exec. discriminate. Qed.

End More.

(** ** More on the shared state *)

Section State.
Context {R : Runtime}.

Lemma AppState_eq (s1 s2 : AppState) :
  stop_execution_flag s1 = stop_execution_flag s2 ->
  data_cache s1 = data_cache s2 ->
  chat_history s1 = chat_history s2 ->
  current_file s1 = current_file s2 ->
  files s1 = files s2 ->
  s1 = s2.
Proof. destruct s1, s2; cbn; intros; subst; reflexivity. Qed.

(** What [load_data] puts into the cache depends on the pointer and
    on the disk only. *)
Lemma load_data_ext (s1 s2 : AppState) :
  current_file s1 = current_file s2 -> files s1 = files s2 ->
  data_cache (load_data s1) = data_cache (load_data s2).
Proof.
  intros Hp Hf. unfold load_data, get_current_file. rewrite Hp, Hf.
  repeat match goal with
    | |- context [match ?x with _ => _ end] => destruct x
    end; reflexivity.
Qed.

(** After [load_data] the cache holds a table only if the pointer
    names a stored file that parses to it. *)
Lemma load_data_coherent (s : AppState) (df : DataFrame) :
  data_cache (load_data s) = Some df ->
  exists current content,
    get_current_file s = Some current /\ truthy current = true /\
    files s !! path_join UPLOAD_FOLDER current = Some content /\
    read_csv (path_join UPLOAD_FOLDER current) content = Ok df.
Proof.
  unfold load_data.
  destruct (get_current_file s) as [current|]; [|discriminate].
  destruct (truthy current) eqn:Ht; [|discriminate].
  destruct (files s !! _) as [content|] eqn:Hf; [|discriminate].
  destruct (read_csv _ content) as [df'|e] eqn:Hr; [|discriminate].
  cbn. intros [= <-]. now exists current, content.
Qed.

(** X13: [load_data] is idempotent: a second reload in a row changes
    nothing. *)
Theorem load_data_idempotent (s : AppState) : load_data (load_data s) = load_data s.
Proof.
  destruct (load_data_frame s) as (Hh & Hp & Hf & Hflag).
  destruct (load_data_frame (load_data s)) as (Hh' & Hp' & Hf' & Hflag').
  apply AppState_eq; try congruence.
  apply load_data_ext; assumption.
Qed.

Lemma startup_cases (s : AppState) : startup s = load_data s \/ startup s = s.
Proof.
  unfold startup. pose proof (bootstrap_dataset_state s) as Hb.
  destruct (bootstrap_dataset s) as [[u|e] s1]; cbn [snd] in Hb; subst s1;
    [now left | now right].
Qed.

Lemma startup_frame (s : AppState) :
  current_file (startup s) = current_file s /\
  files (startup s) = files s /\
  chat_history (startup s) = chat_history s.
Proof.
  destruct (load_data_frame s) as (Hh & Hp & Hf & _).
  destruct (startup_cases s) as [-> | ->]; repeat split; assumption.
Qed.

(** X15: the start of the server never changes what is stored: for
    every base directory and every state, [bootstrap_dataset] returns
    the state it was given, and after [bootstrap_dataset] and
    [load_data] the pointer table, the stored files and the log are as
    before. *)
Theorem startup_keeps_stored_data (s : AppState) :
  (bootstrap_dataset s).2 = s /\
  current_file (startup s) = current_file s /\
  files (startup s) = files s /\
  chat_history (startup s) = chat_history s.
Proof. split; [apply bootstrap_dataset_state | apply startup_frame]. Qed.

(** *** What holds in every state the server reaches *)

Lemma cache_ok_frame (s s' : AppState) :
  data_cache s' = data_cache s -> current_file s' = current_file s ->
  files s' = files s -> cache_ok s -> cache_ok s'.
Proof.
  unfold cache_ok, get_current_file. intros -> -> ->. tauto.
Qed.

Lemma cache_ok_none (s : AppState) : data_cache s = None -> cache_ok s.
Proof. intros H df. rewrite H. discriminate. Qed.

Lemma cache_ok_load (s : AppState) : cache_ok (load_data s).
Proof.
  intros df Hdf. destruct (load_data_frame s) as (_ & Hp & Hf & _).
  unfold get_current_file. rewrite Hp, Hf. now apply load_data_coherent.
Qed.

Lemma upload_file_cases (form : option FileStorage) (s : AppState) :
  (upload_file form s).2 = s \/
  exists file,
    form = Some file /\
    allowed_file (upload_filename file) = true /\
    (upload_file form s).1 = Redirect.
Proof.
  destruct form as [file|]; [|now left]. unfold upload_file.
  destruct (truthy _) ; [|now left]. cbn [andb].
  destruct (allowed_file _) eqn:Ha; [|now left].
  destruct (file_save _ _ _); [right | now left].
  now exists file.
Qed.

Lemma reachable_ok (s : AppState) : reachable s -> pointer_ok s /\ cache_ok s.
Proof.
  induction 1 as [d|s _ IH|s _ IH|s form _ IH|s _ IH|s _ IH|s w pc _ IH].
  - destruct (startup_frame (empty_database d)) as (Hp & _).
    split; [left; now rewrite Hp|].
    destruct (startup_cases (empty_database d)) as [-> | ->];
      [apply cache_ok_load | now apply cache_ok_none].
  - destruct IH as [IHp IHc]. unfold restart.
    destruct (startup_frame (set_flag false (set_cache None s))) as (Hp & _).
    split; [unfold pointer_ok; now rewrite Hp|].
    destruct (startup_cases (set_flag false (set_cache None s))) as [-> | ->];
      [apply cache_ok_load | now apply cache_ok_none].
  - destruct IH as [IHp IHc]. split; [exact IHp|].
    now apply (cache_ok_frame s).
  - destruct (upload_file_cases form s) as [-> | (file & -> & Ha & Hdone)];
      [exact IH|].
    destruct (upload_file_accepted file s Ha Hdone) as [Hname ->].
    split.
    + right. exists (secure_filename (upload_filename file)).
      split; [exact Hname|]. cbn [set_history current_file].
      now destruct (load_data_frame (set_current_file
        (secure_filename (upload_filename file))
        (set_files (<[path_join UPLOAD_FOLDER (secure_filename (upload_filename file))
                      := upload_content file]> (files s)) s))) as (_ & -> & _).
    + eapply cache_ok_frame; [..|apply cache_ok_load]; reflexivity.
  - destruct IH as [IHp IHc]. unfold delete_file.
    destruct (get_current_file s) as [c|]; [|now split].
    destruct (truthy c); [|now split].
    split; [now left | now apply cache_ok_none].
  - destruct IH as [IHp IHc]. split; [exact IHp|].
    now apply (cache_ok_frame s).
  - destruct IH as [IHp IHc].
    destruct (ask_step_dataset w pc s) as (E1 & E2 & E3).
    split; [unfold pointer_ok; now rewrite E2|].
    now apply (cache_ok_frame s).
Qed.

End State.

Section Dataset.
Context {R : Runtime}.

(** X5: in every state the server can reach, the table [current_file]
    is empty or holds exactly one row, with id 1 and a file name that
    is not empty. *)
Theorem reachable_pointer (s : AppState) :
  reachable s ->
  current_file s = [] \/
  exists filename,
    filename <> [] /\
    current_file s = [{| file_id := 1; row_filename := filename |}].
Proof.
  intros Hs. destruct (reachable_ok s Hs) as [[Hp | (f & Hf & Hp)] _];
    [now left | right].
  exists f. split; [now apply truthy_nonempty | exact Hp].
Qed.





Lemma load_data_unparsed (s : AppState) (current : str)
    (content : list Byte.byte) (e : exn) :
  get_current_file s = Some current ->
  truthy current = true ->
  files s !! path_join UPLOAD_FOLDER current = Some content ->
  read_csv (path_join UPLOAD_FOLDER current) content = Raise e ->
  data_cache (load_data s) = None.
Proof.
  intros Hcur Ht Hfile Hread. unfold load_data.
  now rewrite Hcur, Ht, Hfile, Hread.
Qed.

(** X8: an upload with an allowed name whose contents [read_csv]
    cannot parse (line 75) still becomes the current file and still
    empties the log, and it leaves the cache empty, whatever table was
    cached before. *)
Theorem upload_unparseable_empties_cache (file : FileStorage) (s : AppState)
    (e : exn) :
  let filename := secure_filename (upload_filename file) in
  allowed_file (upload_filename file) = true ->
  read_csv (path_join UPLOAD_FOLDER filename) (upload_content file) = Raise e ->
  (upload_file (Some file) s).1 = Redirect ->
  get_current_file (upload_file (Some file) s).2 = Some filename /\
  data_cache (upload_file (Some file) s).2 = None /\
  chat_history (upload_file (Some file) s).2 = [].
Proof.
  intros filename Hallowed Hread Hdone.
  destruct (upload_file_accepted file s Hallowed Hdone) as [Hname ->].
  fold filename. set (s1 := set_current_file filename _).
  destruct (load_data_frame s1) as (_ & Hptr & _).
  repeat split.
  - unfold get_current_file. cbn [set_history current_file]. now rewrite Hptr.
  - cbn [set_history data_cache].
    apply (load_data_unparsed s1 filename (upload_content file) e);
      try assumption; [reflexivity | apply lookup_insert_eq].
Qed.

(** X14: an upload writes one path only: every other stored file is
    as before, and the cancel flag is not touched. *)
Theorem upload_keeps_other_files (form : option FileStorage) (s : AppState)
    (p : str) :
  (forall file, form = Some file ->
     p <> path_join UPLOAD_FOLDER (secure_filename (upload_filename file))) ->
  files (upload_file form s).2 !! p = files s !! p /\
  stop_execution_flag (upload_file form s).2 = stop_execution_flag s.
Proof.
  intros Hp.
  destruct (upload_file_cases form s) as [-> | (file & -> & Ha & Hdone)];
    [now split|].
  destruct (upload_file_accepted file s Ha Hdone) as [_ ->].
  cbn [set_history files stop_execution_flag].
  set (s1 := set_current_file _ _).
  destruct (load_data_frame s1) as (_ & _ & -> & ->).
  split; [|reflexivity]. unfold s1. cbn [set_current_file set_pointer set_files files].
  apply lookup_insert_ne. intros E. now apply (Hp file).
Qed.

(** X16: with a pointer set, [/delete_file] removes the pointed file
    from the upload folder (also when it was already missing), leaves
    every other file, and clears the pointer, the cache and the log;
    the cancel flag stays. *)
Theorem delete_file_removes_current (s : AppState) (current : str) :
  get_current_file s = Some current ->
  truthy current = true ->
  files (delete_file s) !! path_join UPLOAD_FOLDER current = None /\
  (forall p, p <> path_join UPLOAD_FOLDER current ->
             files (delete_file s) !! p = files s !! p) /\
  get_current_file (delete_file s) = None /\
  data_cache (delete_file s) = None /\
  chat_history (delete_file s) = [] /\
  stop_execution_flag (delete_file s) = stop_execution_flag s.
Proof.
  intros Hcur Ht. unfold delete_file. rewrite Hcur, Ht.
  unfold path_exists, os_remove.
  destruct (bool_decide _) eqn:Hex; cbn.
  - repeat split; [apply lookup_delete_eq|].
    intros p Hp. now apply lookup_delete_ne.
  - repeat split. apply bool_decide_eq_false in Hex.
    now apply eq_None_not_Some.
Qed.

Lemma upload_file_reply (file : FileStorage) (s s' : AppState) :
  (upload_file (Some file) s).1 = (upload_file (Some file) s').1.
Proof.
  unfold upload_file. destruct (truthy _ && allowed_file _); [|reflexivity].
  unfold file_save.
  repeat match goal with
    | |- context [if ?c then _ else _] => destruct c
    end; reflexivity.
Qed.

(** X19: uploading the same file a second time changes nothing: the
    reply and the state are those of the first upload. *)
Theorem upload_twice_is_upload_once (file : FileStorage) (s : AppState) :
  allowed_file (upload_filename file) = true ->
  (upload_file (Some file) s).1 = Redirect ->
  upload_file (Some file) (upload_file (Some file) s).2 = upload_file (Some file) s.
Proof.
  intros Ha Hdone.
  assert (Hdone' : (upload_file (Some file) (upload_file (Some file) s).2).1 = Redirect)
    by (now rewrite (upload_file_reply file _ s)).
  apply injective_projections; [congruence|].
  destruct (upload_file_accepted file _ Ha Hdone') as [_ ->].
  destruct (upload_file_accepted file s Ha Hdone) as [_ ->].
  set (filename := secure_filename (upload_filename file)).
  set (p := path_join UPLOAD_FOLDER filename).
  set (s1 := set_current_file filename (set_files (<[p:=upload_content file]> (files s)) s)).
  destruct (load_data_frame s1) as (_ & _ & Hf1 & Hflag1).
  cbn [set_history files]. rewrite Hf1.
  unfold s1 at 1. cbn [set_current_file set_pointer set_files files].
  rewrite insert_insert_eq.
  set (s2 := set_current_file filename _).
  destruct (load_data_frame s2) as (_ & Hp2 & Hf2 & Hflag2).
  destruct (load_data_frame s1) as (_ & Hp1 & _ & _).
  apply AppState_eq; cbn [set_history stop_execution_flag data_cache chat_history
                          current_file files].
  - rewrite Hflag2. unfold s2.
    cbn [set_current_file set_pointer set_files set_history stop_execution_flag].
    reflexivity.
  - apply load_data_ext; reflexivity.
  - reflexivity.
  - now rewrite Hp2, Hp1.
  - now rewrite Hf2, Hf1.
Qed.

End Dataset.

(** ** Witnesses of the further properties *)

Section Witnesses.
#[local] Existing Instance Demo.runtime.

(** Witness of X5 *)
Lemma reachable_pointer_witness :
  current_file Scenario.loaded = [] \/
  exists filename,
    filename <> [] /\
    current_file Scenario.loaded = [{| file_id := 1; row_filename := filename |}].
Proof.
  apply (reachable_pointer (R := Demo.runtime)).
  apply reach_upload, reach_start.
Defined.



(** Witness of X8: an empty file has no columns to parse. *)
Lemma upload_unparseable_empties_cache_witness :
  let file := {| upload_filename := lit "empty.csv"; upload_content := [] |} in
  data_cache Scenario.loaded <> None /\
  get_current_file (upload_file (Some file) Scenario.loaded).2
  = Some (lit "empty.csv") /\
  data_cache (upload_file (Some file) Scenario.loaded).2 = None /\
  chat_history (upload_file (Some file) Scenario.loaded).2 = [].
Proof.
  split; [vm_compute; discriminate |].
  apply (upload_unparseable_empties_cache (R := Demo.runtime)
           {| upload_filename := lit "empty.csv"; upload_content := [] |}
           Scenario.loaded
           (LibraryError (lit "No columns to parse from file")));
    vm_compute; reflexivity.
Defined.


(** Witness of X10 *)
Lemma ask_stopped_only_when_cancelled_witness :
  cancelled (Scenario.stop_at 6 (lit "41")) Scenario.question Scenario.loaded = true.
Proof.
  apply (ask_stopped_only_when_cancelled (R := Demo.runtime)).
  vm_compute. reflexivity.
Defined.

(** Witness of X11 *)
Lemma ask_ignores_stale_flag_witness :
  ask (alone (Scenario.says (lit "41"))) Scenario.question
    (set_flag true Scenario.loaded)
  = ask (alone (Scenario.says (lit "41"))) Scenario.question
      (set_flag false Scenario.loaded).
Proof.
  apply (ask_ignores_stale_flag (R := Demo.runtime)). intros; reflexivity.
Defined.

(** Witness of X12: a stop request in between touches the flag only. *)
Lemma ask_keeps_dataset_witness :
  data_cache (ask (Scenario.stop_at 4 (lit "41")) Scenario.question
                Scenario.loaded).1.2 = data_cache Scenario.loaded /\
  current_file (ask (Scenario.stop_at 4 (lit "41")) Scenario.question
                  Scenario.loaded).1.2 = current_file Scenario.loaded /\
  files (ask (Scenario.stop_at 4 (lit "41")) Scenario.question
           Scenario.loaded).1.2 = files Scenario.loaded.
Proof.
  apply (ask_keeps_dataset (R := Demo.runtime)).
  intros k x. unfold Scenario.stop_at. cbn [concurrent].
  destruct (k =? 4)%nat; repeat split.
Defined.

(** Witness of X14: a second dataset does not disturb the first file. *)
Lemma upload_keeps_other_files_witness :
  let file := {| upload_filename := lit "teeth.csv";
                 upload_content := Scenario.patients_csv |} in
  files (upload_file (Some file) Scenario.loaded).2
    !! lit "/app/uploads/patients.csv"
  = files Scenario.loaded !! lit "/app/uploads/patients.csv" /\
  stop_execution_flag (upload_file (Some file) Scenario.loaded).2
  = stop_execution_flag Scenario.loaded.
Proof.
  apply (upload_keeps_other_files (R := Demo.runtime)).
  intros file [= <-] H. vm_compute in H. discriminate H.
Defined.

(** Witness of X16 *)
Lemma delete_file_removes_current_witness :
  files (delete_file Scenario.loaded)
    !! path_join UPLOAD_FOLDER (lit "patients.csv") = None /\
  (forall p, p <> path_join UPLOAD_FOLDER (lit "patients.csv") ->
             files (delete_file Scenario.loaded) !! p = files Scenario.loaded !! p) /\
  get_current_file (delete_file Scenario.loaded) = None /\
  data_cache (delete_file Scenario.loaded) = None /\
  chat_history (delete_file Scenario.loaded) = [] /\
  stop_execution_flag (delete_file Scenario.loaded)
  = stop_execution_flag Scenario.loaded.
Proof.
  apply (delete_file_removes_current (R := Demo.runtime)); vm_compute; reflexivity.
Defined.


(** Witness of X19 *)
Lemma upload_twice_is_upload_once_witness :
  let file := {| upload_filename := lit "patients.csv";
                 upload_content := Scenario.patients_csv |} in
  upload_file (Some file) (upload_file (Some file) Scenario.no_data).2
  = upload_file (Some file) Scenario.no_data.
Proof.
  apply (upload_twice_is_upload_once (R := Demo.runtime)); vm_compute; reflexivity.
Defined.


End Witnesses.
